(** * Churn mailing filter (raf.py): a shallow embedding and its properties

    The development models [processar_dados_churn_com_motivos] of
    [src/raf.py]: a pandas table is filtered by payer, churn type, legal
    form, recency, delinquency and reason category, then ordered by date
    and category priority.

    - a cell is a string, a number, a timestamp or the missing marker
      (NaN / NaT); numbers are integer valued, as payer identifiers and
      priority ranks are;
    - a row is a finite map from column names to cells, a table is its
      list of column names with its list of rows, in table order;
    - [st.warning] calls are collected in a log, a Python exception ends
      the run: the function lives in a small log-and-error monad;
    - [datetime.now()] is the argument [data_atual]; the text parsers of
      Python and pandas ([int], [pd.to_numeric], [pd.to_datetime]) are
      section variables, so that every result holds for any parser. *)

From Stdlib Require Import ZArith Ascii String.
From stdpp Require Import gmap strings list fin_maps sorting.

Local Open Scope Z_scope.

(** ** Cells, rows and tables *)

Inductive cell : Type :=
  | Str (s : string)        (* a text cell *)
  | Num (n : Z)             (* a numeric cell (integer valued) *)
  | Timestamp (t : Z)       (* a date/time, microseconds since the epoch *)
  | NaN.                    (* missing: NaN, NaT, None *)

#[global] Instance cell_eq_dec : EqDecision cell.
Proof. solve_decision. Defined.

#[global] Instance cell_inhabited : Inhabited cell := populate NaN.

Abbreviation row := (gmap string cell).

Record DataFrame : Type := mkDF {
  columns : list string;
  rows : list row
}.

#[global] Instance DataFrame_eq_dec : EqDecision DataFrame.
Proof. solve_decision. Defined.

(** ** Warnings, exceptions and the monad of the processing function *)

Inductive exn : Type :=
  | KeyError (c : string).

Inductive aviso : Type :=
  | ErroFiltroPagadores (e : exn) (* st.error: the payer filter raised *)
  | AvisoPagadorMinusculo      (* 'Pagador' found instead of 'PAGADOR' *)
  | AvisoPagadoresNaoInteiros  (* the payers to remove are not integers *)
  | AvisoSemData               (* no 'DATACRIACAOOS' column *)
  | AvisoSemInadimplencia      (* no 'STATUSINADIMPLENTE' column *)
  | AvisoSemCategoria.         (* no 'CATEGORIA4' column *)

#[global] Instance exn_eq_dec : EqDecision exn.
Proof. solve_decision. Defined.

#[global] Instance aviso_eq_dec : EqDecision aviso.
Proof. solve_decision. Defined.

Module Run.

(** A computation yields the warnings shown so far, then an exception
    or a value. *)
Definition t (A : Type) : Type := (list aviso * (exn + A))%type.

Definition ret {A} (x : A) : t A := ([], inr x).

Definition raise {A} (e : exn) : t A := ([], inl e).

Definition warning (w : aviso) : t unit := ([w], inr tt).

Definition bind {A B} (m : t A) (k : A → t B) : t B :=
  match m with
  | (ws, inl e) => (ws, inl e)
  | (ws, inr x) => let '(ws', r) := k x in (ws ++ ws', r)
  end.

(** [try: m except Exception as e: st.error(...)]: the exception is
    reported and the run goes on with [fallback]. *)
Definition except {A} (m : t A) (fallback : A) : t A :=
  match m with
  | (ws, inl e) => (ws ++ [ErroFiltroPagadores e], inr fallback)
  | _ => m
  end.

Definition avisos {A} (m : t A) : list aviso := m.1.

Definition resultado {A} (m : t A) : exn + A := m.2.

End Run.

(** The monad is registered with stdpp's classes, which gives the
    notations [x ← m; k] and [m;; k]. *)
#[global] Instance run_ret : MRet Run.t := @Run.ret.
#[global] Instance run_bind : MBind Run.t := λ A B k m, Run.bind m k.

(** What the user gets from the button "Criar Mailing". *)
Inductive desfecho : Type :=
  | ListaDeMotivosVazia                       (* warning, nothing processed *)
  | ErroAoProcessar (e : exn)                 (* st.error, no file *)
  | NenhumCasoEncontrado                      (* warning, no file *)
  | PlanilhaParaBaixar (df : DataFrame).      (* the download button *)

(** ** The pandas operations the function uses *)

(** [c in df.columns] *)
Definition has_column (c : string) (df : DataFrame) : bool :=
  bool_decide (c ∈ columns df).

(** [df[c]] read as a series: the cells of column [c] in row order;
    [KeyError] when the table has no such column. *)
Definition getitem (c : string) (df : DataFrame) : Run.t (list cell) :=
  if has_column c df
  then Run.ret (fmap (λ r : row, r !!! c) (rows df))
  else Run.raise (KeyError c).

(** [df[mask]]: the rows whose mask entry is true, in table order. *)
Definition loc (mask : list bool) (df : DataFrame) : DataFrame :=
  mkDF (columns df) (fmap fst (filter (λ p : row * bool, p.2 = true) (zip (rows df) mask))).

(** [df[c] = series]: overwrites column [c], or appends it as the last
    column when it is new. *)
Definition setitem (c : string) (vals : list cell) (df : DataFrame) : DataFrame :=
  mkDF (if has_column c df then columns df else columns df ++ [c])
       (zip_with (λ (r : row) v, <[c := v]> r) (rows df) vals).

(** [df.drop(columns=[c])] *)
Definition drop_column (c : string) (df : DataFrame) : Run.t DataFrame :=
  if has_column c df
  then Run.ret (mkDF (filter (λ c', c' ≠ c) (columns df))
                     (fmap (λ r : row, delete c r) (rows df)))
  else Run.raise (KeyError c).

(** [series != v], elementwise; a missing cell differs from every value. *)
Definition ne (v : cell) (s : list cell) : list bool :=
  fmap (λ c, bool_decide (c ≠ v)) s.

(** [series.isin(values)], elementwise. *)
Definition isin (values : list cell) (s : list cell) : list bool :=
  fmap (λ c, bool_decide (c ∈ values)) s.

(** [~mask] *)
Definition invert (mask : list bool) : list bool := fmap negb mask.

(** [series.notna()] *)
Definition notna (s : list cell) : list bool :=
  fmap (λ c, bool_decide (c ≠ NaN)) s.

(** [series >= limit] on a datetime series; NaT compares false. *)
Definition ge_datetime (limit : Z) (s : list cell) : list bool :=
  fmap (λ c, match c with Timestamp t => bool_decide (limit ≤ t) | _ => false end) s.

(** [timedelta(days=n)] in microseconds. *)
Definition timedelta_days (n : Z) : Z := n * 86400000000.

(** [series.map(d)] for a dictionary with text keys: a cell that is not
    a key of [d] becomes missing. *)
Definition map_cell (d : gmap string Z) (c : cell) : cell :=
  match c with
  | Str k => match d !! k with Some v => Num v | None => NaN end
  | _ => NaN
  end.

Definition series_map (d : gmap string Z) (s : list cell) : list cell :=
  fmap (map_cell d) s.

(** *** [sort_values]

    With several [by] columns pandas sorts by a lexicographic, stable
    sort: rows with equal keys keep their table order, also in a
    descending column, and missing values go last
    ([na_position='last']).  A stable sort is determined by its order, so
    it is modelled by the stable insertion sort.  The columns sorted in
    this program hold numbers, timestamps and missing cells only (see
    [to_datetime_ordenavel] and [series_map_ordenavel]); a cell without a
    value to order by is treated as missing. *)

Definition valor (c : cell) : option Z :=
  match c with
  | Num n => Some n
  | Timestamp t => Some t
  | _ => None
  end.

(** [key_lt asc a b]: key [a] comes strictly before key [b]. *)
Definition key_lt (asc : bool) (a b : option Z) : bool :=
  match a, b with
  | Some x, Some y => if asc then bool_decide (x < y) else bool_decide (y < x)
  | Some _, None => true
  | None, _ => false
  end.

Fixpoint lex_le (keys : list (bool * (option Z * option Z))) : bool :=
  match keys with
  | [] => true
  | (asc, (a, b)) :: keys' =>
      key_lt asc a b || (bool_decide (a = b) && lex_le keys')
  end.

Definition row_le (by_ : list string) (ascending : list bool) (r1 r2 : row) : bool :=
  lex_le (zip ascending (fmap (λ c, (valor (r1 !!! c), valor (r2 !!! c))) by_)).

Fixpoint insert_by {A} (le : A → A → bool) (x : A) (l : list A) : list A :=
  match l with
  | [] => [x]
  | y :: l' => if le x y then x :: l else y :: insert_by le x l'
  end.

Definition stable_sort {A} (le : A → A → bool) (l : list A) : list A :=
  foldr (insert_by le) [] l.

(** [df.sort_values(by=by_, ascending=ascending)]; [KeyError] on the
    first [by] column the table does not have. *)
Definition sort_values (by_ : list string) (ascending : list bool)
    (df : DataFrame) : Run.t DataFrame :=
  match filter (λ c, has_column c df = false) by_ with
  | c :: _ => Run.raise (KeyError c)
  | [] => Run.ret (mkDF (columns df) (stable_sort (row_le by_ ascending) (rows df)))
  end.

(** ** The processing function *)

(** [{categoria: i + 1 for i, categoria in enumerate(categorias_permitidas)}]:
    the entries are written from left to right, a later entry for the
    same key replaces the earlier one. *)
Definition prioridade_map (categorias_permitidas : list string) : gmap string Z :=
  foldl (λ (d : gmap string Z) (e : nat * string), <[e.2 := Z.of_nat e.1 + 1]> d)
        ∅ (imap pair categorias_permitidas).

Section Processamento.

(** [int(p)] on a string: [None] stands for [ValueError]. *)
Variable py_int : string → option Z.
(** What [pd.to_numeric] reads in a cell that is not yet a number. *)
Variable parse_numeric : cell → option Z.
(** What [pd.to_datetime] reads in a cell that is not yet a timestamp. *)
Variable parse_datetime : cell → option Z.

(** [pd.to_numeric(series, errors='coerce')] on one cell. *)
Definition to_numeric (c : cell) : cell :=
  match c with
  | Num n => Num n
  | NaN => NaN
  | _ => match parse_numeric c with Some n => Num n | None => NaN end
  end.

(** [pd.to_datetime(series, errors='coerce')] on one cell. *)
Definition to_datetime (c : cell) : cell :=
  match c with
  | Timestamp t => Timestamp t
  | NaN => NaN
  | _ => match parse_datetime c with Some t => Timestamp t | None => NaN end
  end.

(** The body of the [try] block of the payer filter, entered once the
    payer column is known. *)
Definition filtrar_pagadores (coluna_pagador : string)
    (pagadores_a_remover_convertidos : list Z) (df : DataFrame) : Run.t DataFrame :=
  s ← getitem coluna_pagador df;
  let df := setitem coluna_pagador (fmap to_numeric s) df in
  s ← getitem coluna_pagador df;
  mret (loc (invert (isin (fmap Num pagadores_a_remover_convertidos) s)) df).

(** Lines 34-58: the removal of the given payers. *)
Definition remover_pagadores (df : DataFrame) (pagadores_a_remover : list string)
    : Run.t DataFrame :=
  if bool_decide (pagadores_a_remover = []) then mret df else
  coluna_pagador ←
    (if has_column "PAGADOR" df then mret (Some "PAGADOR")
     else if has_column "Pagador" df
          then Run.warning AvisoPagadorMinusculo;; mret (Some "Pagador")
          else mret None);
  match coluna_pagador with
  | None => mret df
  | Some coluna_pagador =>
      match mapM py_int pagadores_a_remover with
      | None => Run.warning AvisoPagadoresNaoInteiros;; mret df
      | Some convertidos =>
          Run.except (filtrar_pagadores coluna_pagador convertidos df) df
      end
  end.

(** Lines 64-67: the churn-type and legal-form filters. *)
Definition filtros_padrao (df : DataFrame) : Run.t DataFrame :=
  s ← getitem "Tipo de Churn" df;
  let df := loc (ne (Str "Involuntário") s) df in
  s ← getitem "FORMAJURIDICA" df;
  mret (loc (ne (Str "C1") s) df).

(** Lines 73-81: the recency window. *)
Definition filtrar_data (limite_data : Z) (df : DataFrame) : Run.t DataFrame :=
  if has_column "DATACRIACAOOS" df then
    s ← getitem "DATACRIACAOOS" df;
    let df := setitem "DATACRIACAOOS" (fmap to_datetime s) df in
    s ← getitem "DATACRIACAOOS" df;
    let df := loc (notna s) df in
    s ← getitem "DATACRIACAOOS" df;
    mret (loc (ge_datetime limite_data s) df)
  else
    Run.warning AvisoSemData;; mret df.

(** Lines 83-87: the delinquency filter. *)
Definition filtrar_inadimplentes (df : DataFrame) : Run.t DataFrame :=
  if has_column "STATUSINADIMPLENTE" df then
    s ← getitem "STATUSINADIMPLENTE" df;
    mret (loc (ne (Str "I") s) df)
  else
    Run.warning AvisoSemInadimplencia;; mret df.

(** Lines 90-92: the category filter and the priority column. *)
Definition atribuir_prioridade (categorias_permitidas : list string)
    (df : DataFrame) : Run.t DataFrame :=
  s ← getitem "CATEGORIA4" df;
  let df := loc (isin (fmap Str categorias_permitidas) s) df in
  s ← getitem "CATEGORIA4" df;
  mret (setitem "Prioridade Motivo"
          (series_map (prioridade_map categorias_permitidas) s) df).

(** Lines 89-97: the category filter and the priority sort. *)
Definition filtrar_categorias (categorias_permitidas : list string)
    (df : DataFrame) : Run.t DataFrame :=
  if has_column "CATEGORIA4" df then
    df ← atribuir_prioridade categorias_permitidas df;
    df ← sort_values ["DATACRIACAOOS"; "Prioridade Motivo"] [false; true] df;
    drop_column "Prioridade Motivo" df
  else
    Run.warning AvisoSemCategoria;; mret df.

Definition processar_dados_churn_com_motivos (data_atual : Z) (df : DataFrame)
    (categorias_permitidas : list string) (pagadores_a_remover : list string)
    : Run.t DataFrame :=
  df ← remover_pagadores df pagadores_a_remover;
  df ← filtros_padrao df;
  let limite_data := data_atual - timedelta_days 60 in
  df ← filtrar_data limite_data df;
  df ← filtrar_inadimplentes df;
  df ← filtrar_categorias categorias_permitidas df;
  mret df.

(** Lines 146-201, the button handler, as far as the table goes: what
    the user gets from one upload. *)
Definition criar_mailing (data_atual : Z) (df_input : DataFrame)
    (categorias_usuario : list string) (pagadores_a_remover : list string)
    : desfecho :=
  if bool_decide (categorias_usuario = []) then ListaDeMotivosVazia else
  match Run.resultado
          (processar_dados_churn_com_motivos data_atual df_input
             categorias_usuario pagadores_a_remover) with
  | inl e => ErroAoProcessar e
  | inr df_processado =>
      if bool_decide (0 < length (rows df_processado))%nat
      then PlanilhaParaBaixar df_processado
      else NenhumCasoEncontrado
  end.

End Processamento.

(** ** Concrete parsers and tables for the examples *)

Module Exemplo.

Definition digito (a : ascii) : option Z :=
  let n := Z.of_nat (nat_of_ascii a) in
  if bool_decide (48 ≤ n ≤ 57) then Some (n - 48) else None.

Fixpoint digitos (acc : Z) (s : string) : option Z :=
  match s with
  | EmptyString => Some acc
  | String a s' =>
      match digito a with
      | Some d => digitos (10 * acc + d) s'
      | None => None
      end
  end.

(** [int] on a decimal literal with an optional minus sign. *)
Definition py_int (s : string) : option Z :=
  match s with
  | EmptyString => None
  | String "-" EmptyString => None
  | String "-" s' => Z.opp <$> digitos 0 s'
  | _ => digitos 0 s
  end.

Definition parse_numeric (c : cell) : option Z :=
  match c with Str s => py_int s | _ => None end.

(** Days from 1970-01-01 to the given civil date. *)
Definition dias_desde_epoca (y m d : Z) : Z :=
  let y' := if bool_decide (m ≤ 2) then y - 1 else y in
  let era := y' / 400 in
  let yoe := y' - era * 400 in
  let mp := if bool_decide (m ≤ 2) then m + 9 else m - 3 in
  let doy := (153 * mp + 2) / 5 + d - 1 in
  let doe := yoe * 365 + yoe / 4 - yoe / 100 + doy in
  era * 146097 + doe - 719468.

(** A date written [YYYY-MM-DD]. *)
Definition parse_datetime (c : cell) : option Z :=
  match c with
  | Str s =>
      if bool_decide (String.length s = 10%nat
                      ∧ String.get 4 s = Some "-"%char
                      ∧ String.get 7 s = Some "-"%char)
      then
        y ← digitos 0 (String.substring 0 4 s);
        m ← digitos 0 (String.substring 5 2 s);
        d ← digitos 0 (String.substring 8 2 s);
        if bool_decide (1 ≤ m ≤ 12 ∧ 1 ≤ d ≤ 31)
        then Some (timedelta_days (dias_desde_epoca y m d))
        else None
      else None
  | _ => None
  end.

Definition processar :=
  processar_dados_churn_com_motivos py_int parse_numeric parse_datetime.

(** 2024-06-30 00:00 *)
Definition hoje : Z := timedelta_days 19904.

Definition linha (pagador churn forma data status categoria : cell) : row :=
  list_to_map
    [ ("PAGADOR", pagador); ("Tipo de Churn", churn); ("FORMAJURIDICA", forma);
      ("DATACRIACAOOS", data); ("STATUSINADIMPLENTE", status);
      ("CATEGORIA4", categoria) ].

Definition colunas : list string :=
  [ "PAGADOR"; "Tipo de Churn"; "FORMAJURIDICA"; "DATACRIACAOOS";
    "STATUSINADIMPLENTE"; "CATEGORIA4" ].

Definition base : DataFrame :=
  mkDF colunas
    [ linha (Num 101) (Str "Voluntário") (Str "PF") (Str "2024-06-10")
            (Str "A") (Str "DESEJA DESCONTO");
      linha (Str "102") (Str "Voluntário") (Str "PF") (Str "2024-06-20")
            (Str "A") (Str "FALTA DE PRODUTO");
      linha (Str "s/n") (Str "Voluntário") (Str "PJ") (Str "2024-06-20")
            (Str "A") (Str "DESEJA DESCONTO");
      linha (Num 104) (Str "Involuntário") (Str "PF") (Str "2024-06-21")
            (Str "A") (Str "DESEJA DESCONTO");
      linha (Num 105) (Str "Voluntário") (Str "C1") (Str "2024-06-22")
            (Str "A") (Str "DESEJA DESCONTO");
      linha (Num 106) (Str "Voluntário") (Str "PF") (Str "sem data")
            (Str "A") (Str "DESEJA DESCONTO");
      linha (Num 107) (Str "Voluntário") (Str "PF") (Str "2024-01-05")
            (Str "A") (Str "DESEJA DESCONTO");
      linha (Num 108) (Str "Voluntário") (Str "PF") (Str "2024-06-25")
            (Str "I") (Str "DESEJA DESCONTO");
      linha (Num 109) (Str "Voluntário") (Str "PF") (Str "2024-06-26")
            (Str "A") (Str "OUTRO MOTIVO") ].

Definition motivos : list string := [ "DESEJA DESCONTO"; "FALTA DE PRODUTO" ].

(** The same table without a column. *)
Definition sem_coluna (c : string) (df : DataFrame) : DataFrame :=
  mkDF (filter (λ c', c' ≠ c) (columns df))
       ((λ r : row, delete c r) <$> rows df).

Definition linha_sn : row :=
  linha (Str "s/n") (Str "Voluntário") (Str "PJ") (Timestamp 1718841600000000)
        (Str "A") (Str "DESEJA DESCONTO").

Definition linha_102 : row :=
  linha (Str "102") (Str "Voluntário") (Str "PF") (Timestamp 1718841600000000)
        (Str "A") (Str "FALTA DE PRODUTO").

Definition linha_101 : row :=
  linha (Num 101) (Str "Voluntário") (Str "PF") (Timestamp 1717977600000000)
        (Str "A") (Str "DESEJA DESCONTO").

(** What [base] gives with no payer to remove: the two rows of 20 June
    first, the one with the category of rank 1 before the one of rank 2,
    then the row of 10 June. *)
Definition mailing : DataFrame := mkDF colunas [ linha_sn; linha_102; linha_101 ].

(** What [base] gives when the payers 102 and 109 are removed: the payer
    column is coerced, the payer that is not a number is missing. *)
Definition mailing_sem_102 : DataFrame :=
  mkDF colunas [ <["PAGADOR" := NaN]> linha_sn; linha_101 ].

(** An allowed list that names a category twice. *)
Definition motivos_repetidos : list string :=
  [ "DESEJA DESCONTO"; "FALTA DE PRODUTO"; "DESEJA DESCONTO" ].

(** [mailing] with the priority column of [motivos_repetidos]. *)
Definition mailing_priorizado : DataFrame :=
  mkDF (colunas ++ ["Prioridade Motivo"])
       [ <["Prioridade Motivo" := Num 3]> linha_sn;
         <["Prioridade Motivo" := Num 2]> linha_102;
         <["Prioridade Motivo" := Num 3]> linha_101 ].

(** A hundred rows, ten of them of involuntary churn. *)
Definition cem_linhas : DataFrame :=
  mkDF colunas
       (replicate 45 linha_101
        ++ replicate 10 (<["Tipo de Churn" := Str "Involuntário"]> linha_102)
        ++ replicate 45 linha_sn).

End Exemplo.

(** ** Predicates used in the statements *)

(** The payer column the function works on: ['PAGADOR'], else
    ['Pagador'], else none (lines 35-40). *)
Definition coluna_pagador (df : DataFrame) : option string :=
  if has_column "PAGADOR" df then Some "PAGADOR"
  else if has_column "Pagador" df then Some "Pagador"
  else None.

(** The warning that goes with the choice of the payer column. *)
Definition avisos_coluna_pagador (df : DataFrame) : list aviso :=
  if has_column "PAGADOR" df then []
  else if has_column "Pagador" df then [AvisoPagadorMinusculo]
  else [].

(** [recente limit c]: the cell is a timestamp not before [limit]. *)
Definition recente (limit : Z) (c : cell) : Prop :=
  ∃ t, c = Timestamp t ∧ limit ≤ t.

#[global] Instance recente_dec limit c : Decision (recente limit c).
Proof.
  refine (match c with
          | Timestamp t => cast_if (decide (limit ≤ t))
          | _ => right _
          end); unfold recente; try (intros (t' & ? & ?); congruence); eauto.
  intros (t' & [= <-] & ?). done.
Defined.

(** The rows that pass the category filter, with their priority written
    in the transient column (lines 90-92). *)
Definition linhas_priorizadas (categorias_permitidas : list string)
    (rs : list row) : list row :=
  (λ r : row, <["Prioridade Motivo" :=
                 map_cell (prioridade_map categorias_permitidas)
                          (r !!! "CATEGORIA4")]> r)
  <$> filter (λ r : row, r !!! "CATEGORIA4" ∈ Str <$> categorias_permitidas) rs.

(** The order of line 93: creation date descending, then priority
    ascending. *)
Definition ordem_mailing : row → row → bool :=
  row_le ["DATACRIACAOOS"; "Prioridade Motivo"] [false; true].

(** [deriva X rs rs']: every row of [rs'] is a row of [rs], changed at
    most in the columns [X]. *)
Definition deriva (X : list string) (rs rs' : list row) : Prop :=
  ∀ r', r' ∈ rs' → ∃ r, r ∈ rs ∧ ∀ c, c ∉ X → r' !! c = r !! c.

(** [passo X d d']: [d'] has the columns of [d], and its rows are rows of
    [d] in the order of [d], changed at most in the columns [X]. *)
Definition passo (X : list string) (d d' : DataFrame) : Prop :=
  columns d' = columns d ∧
  ∃ f : row → row,
    (∀ r c, c ∉ X → f r !! c = r !! c) ∧ rows d' `sublist_of` (f <$> rows d).

(** The priority rank of a row: the entry of its category in the
    priority dictionary. *)
Definition posto (categorias_permitidas : list string) (r : row) : option Z :=
  match r !!! "CATEGORIA4" with
  | Str c => prioridade_map categorias_permitidas !! c
  | _ => None
  end.

(** [ultima_posicao cats c i]: [i] is the index (from 0) of the last
    occurrence of [c] in [cats]. *)
Definition ultima_posicao (cats : list string) (c : string) (i : nat) : Prop :=
  cats !! i = Some c ∧ ∀ j, (i < j)%nat → cats !! j ≠ Some c.

(** ** The whole function, row by row

    What a run does to one row of the input, written without the monad:
    used to state what the function returns as a whole. *)

Section Especificacao.

Variable py_int : string → option Z.
Variable parse_numeric : cell → option Z.
Variable parse_datetime : cell → option Z.

(** The payer column and the integers the payer step filters with, when
    it does filter: a non-empty list that reads as integers and a table
    with a payer column. *)
Definition filtro_pagadores (df : DataFrame) (ps : list string)
    : option (string * list Z) :=
  if bool_decide (ps = []) then None else
  match coluna_pagador df, mapM py_int ps with
  | Some c, Some ints => Some (c, ints)
  | _, _ => None
  end.

(** The warnings of the payer step: none without payers to remove or
    without a payer column; else the one on the spelling of the column,
    then the one on payers that are not integers. *)
Definition avisos_pagadores (df : DataFrame) (ps : list string) : list aviso :=
  if bool_decide (ps = []) then [] else
  match coluna_pagador df with
  | None => []
  | Some _ =>
      avisos_coluna_pagador df
      ++ match mapM py_int ps with
         | Some _ => []
         | None => [AvisoPagadoresNaoInteiros]
         end
  end.

(** What the payer step does to a row it keeps, and its test. *)
Definition converte_pagador (df : DataFrame) (ps : list string) (r : row) : row :=
  match filtro_pagadores df ps with
  | Some (c, _) => <[c := to_numeric parse_numeric (r !!! c)]> r
  | None => r
  end.

Definition passa_pagadores (df : DataFrame) (ps : list string) (r : row) : Prop :=
  match filtro_pagadores df ps with
  | Some (c, ints) => to_numeric parse_numeric (r !!! c) ∉ Num <$> ints
  | None => True
  end.

#[global] Instance passa_pagadores_dec df ps r : Decision (passa_pagadores df ps r).
Proof.
  unfold passa_pagadores. destruct (filtro_pagadores df ps) as [[c ints]|]; apply _.
Defined.

(** What the date step does to a row it keeps. *)
Definition converte_data (df : DataFrame) (r : row) : row :=
  if has_column "DATACRIACAOOS" df
  then <["DATACRIACAOOS" := to_datetime parse_datetime (r !!! "DATACRIACAOOS")]> r
  else r.

(** The coercions and the removal of the priority column a surviving
    row goes through. *)
Definition linha_convertida (df : DataFrame) (ps : list string) (r : row) : row :=
  let r2 := converte_data df (converte_pagador df ps r) in
  if has_column "CATEGORIA4" df then delete "Prioridade Motivo" r2 else r2.

(** The tests a row of the input has to pass, read on the input row. *)
Definition sobrevive (data_atual : Z) (df : DataFrame)
    (categorias_permitidas : list string) (ps : list string) (r : row) : Prop :=
  passa_pagadores df ps r
  ∧ r !!! "Tipo de Churn" ≠ Str "Involuntário"
  ∧ r !!! "FORMAJURIDICA" ≠ Str "C1"
  ∧ ("DATACRIACAOOS" ∈ columns df →
     recente (data_atual - timedelta_days 60)
             (to_datetime parse_datetime (r !!! "DATACRIACAOOS")))
  ∧ ("STATUSINADIMPLENTE" ∈ columns df → r !!! "STATUSINADIMPLENTE" ≠ Str "I")
  ∧ ("CATEGORIA4" ∈ columns df →
     r !!! "CATEGORIA4" ∈ Str <$> categorias_permitidas).

#[global] Instance sobrevive_dec data_atual df cats ps r :
  Decision (sobrevive data_atual df cats ps r).
Proof. unfold sobrevive. apply _. Defined.

End Especificacao.

(** The column whose absence makes the function raise: the churn type,
    else the legal form, else the creation date when the table has the
    category column. *)
Definition coluna_em_falta (df : DataFrame) : option string :=
  if negb (has_column "Tipo de Churn" df) then Some "Tipo de Churn"
  else if negb (has_column "FORMAJURIDICA" df) then Some "FORMAJURIDICA"
  else if has_column "CATEGORIA4" df && negb (has_column "DATACRIACAOOS" df)
       then Some "DATACRIACAOOS"
  else None.

(** The warnings of the three optional steps, by the columns of the
    table. *)
Definition avisos_colunas (df : DataFrame) : list aviso :=
  (if has_column "DATACRIACAOOS" df then [] else [AvisoSemData])
  ++ (if has_column "STATUSINADIMPLENTE" df then [] else [AvisoSemInadimplencia])
  ++ (if has_column "CATEGORIA4" df then [] else [AvisoSemCategoria]).

(** ** The text of the input boxes (lines 8-16, 109, 131, 151, 157)

    A Python string is a list of code points.  The categories and the
    payers go to the processing function as byte strings, in UTF-8, as
    the text cells of the table are. *)

Abbreviation texto := (list N).

Module Entrada.

(** [str.isspace] on one character: the code points CPython takes for
    white space. *)
Definition isspace (c : N) : bool :=
  bool_decide (c ∈ [9; 10; 11; 12; 13; 28; 29; 30; 31; 32; 133; 160; 5760;
                    8192; 8193; 8194; 8195; 8196; 8197; 8198; 8199; 8200;
                    8201; 8202; 8232; 8233; 8239; 8287; 12288]%N).

(** The code points at which [str.splitlines] ends a line. *)
Definition islinebreak (c : N) : bool :=
  bool_decide (c ∈ [10; 11; 12; 13; 28; 29; 30; 133; 8232; 8233]%N).

Fixpoint lstrip (s : texto) : texto :=
  match s with
  | [] => []
  | c :: s' => if isspace c then lstrip s' else s
  end.

Definition rstrip (s : texto) : texto := reverse (lstrip (reverse s)).

(** [s.strip()] *)
Definition strip (s : texto) : texto := rstrip (lstrip s).

(** [s.splitlines()], with the line read so far in [cur], last character
    first: a line ends at a line break, "\r\n" counts as one, and the
    text after the last line break is a line when it is not empty. *)
Fixpoint splitlines_aux (cur : texto) (s : texto) : list texto :=
  match s with
  | [] => match cur with [] => [] | _ => [reverse cur] end
  | c :: s' =>
      if islinebreak c then
        reverse cur ::
          match s' with
          | c' :: s'' =>
              if bool_decide (c = 13%N) && bool_decide (c' = 10%N)
              then splitlines_aux [] s''
              else splitlines_aux [] s'
          | [] => splitlines_aux [] s'
          end
      else splitlines_aux (c :: cur) s'
  end.

Definition splitlines (s : texto) : list texto := splitlines_aux [] s.

(** [s.split(sep)] for a separator of one character. *)
Fixpoint split_aux (sep : N) (cur : texto) (s : texto) : list texto :=
  match s with
  | [] => [reverse cur]
  | c :: s' =>
      if bool_decide (c = sep) then reverse cur :: split_aux sep [] s'
      else split_aux sep (c :: cur) s'
  end.

Definition split (sep : N) (s : texto) : list texto := split_aux sep [] s.

(** [sep.join(l)] *)
Fixpoint join (sep : texto) (l : list texto) : texto :=
  match l with
  | [] => []
  | [x] => x
  | x :: l' => x ++ sep ++ join sep l'
  end.

(** Line 151:
    [[linha.strip() for linha in user_motivos.splitlines() if linha.strip()]] *)
Definition categorias_usuario (user_motivos : texto) : list texto :=
  strip <$> filter (λ linha, strip linha ≠ []) (splitlines user_motivos).

(** Line 157:
    [[p.strip() for p in pagadores_str.split(',') if p.strip()]] *)
Definition pagadores_a_remover (pagadores_str : texto) : list texto :=
  strip <$> filter (λ p, strip p ≠ []) (split 44%N pagadores_str).

(** Lines 109 and 131: the text of the category box at the start of a
    session and after "Restaurar Motivos Padrão". *)
Definition motivos_input (motivos : list texto) : texto := join [10%N] motivos.

(** *** Byte strings and code points *)

Definition byte (a : ascii) : N := N_of_ascii a.

(** The code points of a byte string in UTF-8; a byte that starts no
    well-formed sequence stands for itself. *)
Fixpoint decodificar (s : string) : texto :=
  match s with
  | EmptyString => []
  | String a s1 =>
      let b0 := byte a in
      match s1 with
      | String a1 s2 =>
          let b1 := byte a1 in
          if bool_decide (192 ≤ b0 < 224)%N then
            ((b0 - 192) * 64 + (b1 - 128))%N :: decodificar s2
          else
            match s2 with
            | String a2 s3 =>
                let b2 := byte a2 in
                if bool_decide (224 ≤ b0 < 240)%N then
                  ((b0 - 224) * 4096 + (b1 - 128) * 64 + (b2 - 128))%N
                  :: decodificar s3
                else
                  match s3 with
                  | String a3 s4 =>
                      let b3 := byte a3 in
                      if bool_decide (240 ≤ b0)%N then
                        ((b0 - 240) * 262144 + (b1 - 128) * 4096
                         + (b2 - 128) * 64 + (b3 - 128))%N
                        :: decodificar s4
                      else b0 :: decodificar s1
                  | EmptyString => b0 :: decodificar s1
                  end
            | EmptyString => b0 :: decodificar s1
            end
      | EmptyString => [b0]
      end
  end.

Definition bytes_de (c : N) : list N :=
  if bool_decide (c < 128)%N then [c]
  else if bool_decide (c < 2048)%N then [192 + c / 64; 128 + c mod 64]%N
  else if bool_decide (c < 65536)%N then
    [224 + c / 4096; 128 + (c / 64) mod 64; 128 + c mod 64]%N
  else [240 + c / 262144; 128 + (c / 4096) mod 64; 128 + (c / 64) mod 64;
        128 + c mod 64]%N.

(** The byte string of a text, in UTF-8. *)
Definition codificar (s : texto) : string :=
  string_of_list_ascii (ascii_of_N <$> (s ≫= bytes_de)).

(** Lines 8-16. *)
Definition motivos_padrao : list string :=
  [ "PREÇO CARO CUSTO BENEFÍCIO"; "SEM CONDIÇÕES FINANCEIRAS"; "DESEJA DESCONTO";
    "QUEBRA CONSTANTE"; "PROBLEMA NÃO RESOLVIDO"; "NÃO QUER INFORMAR O MOTIVO";
    "INSATISFAÇÃO SERVIÇO CAMPO"; "QUEBRA CONSTANTE/FERRUGEM/ BARULHO";
    "INSATISFAÇÃO COM O TÉCNICO"; "DISPONIBILIDADE DE AGENDA - DATA DISTANTE";
    "AGENDA NÃO CUMPRIDA"; "ATRASO DE MANUTENÇÃO PREVENTIVA";
    "POSTURA DO ATENDENTE"; "JÁ COMPROU OU GANHOU OUTRO PURIFICADOR";
    "DEMORA PARA SER ATENDIDO"; "PURIFICADOR SEM UTILIZAÇÃO"; "TAMANHO/DESIGN/COR";
    "FECHAMENTO EMPRESA / FILIAL OU DEPARTAMENTO"; "FALTA DE PRODUTO" ].

(** An entry as the two boxes give it: not empty, without white space
    at either end. *)
Definition aparado (x : texto) : Prop := x ≠ [] ∧ strip x = x.

#[global] Instance aparado_dec x : Decision (aparado x).
Proof. unfold aparado. apply _. Defined.

End Entrada.

(** ** The button "Criar Mailing" (lines 146-204) *)

(** What [st.file_uploader] and [pd.read_excel] give: a table, or an
    exception of [read_excel]. *)
Inductive arquivo : Type :=
  | Ilegivel
  | Planilha (df : DataFrame).

Inductive desfecho_clique : Type :=
  | SemArquivo                  (* line 204: no file was uploaded *)
  | ErroAoLer                   (* line 201: [read_excel] raised *)
  | Clique (d : desfecho).

Section Botao.

Variable py_int : string → option Z.
Variable parse_numeric : cell → option Z.
Variable parse_datetime : cell → option Z.

Definition botao_criar_mailing (data_atual : Z) (uploaded_file : option arquivo)
    (user_motivos pagadores_str : texto) : desfecho_clique :=
  match uploaded_file with
  | None => SemArquivo
  | Some Ilegivel => ErroAoLer
  | Some (Planilha df_input) =>
      Clique (criar_mailing py_int parse_numeric parse_datetime data_atual df_input
                (Entrada.codificar <$> Entrada.categorias_usuario user_motivos)
                (Entrada.codificar <$> Entrada.pagadores_a_remover pagadores_str))
  end.

End Botao.

(** * Properties *)

(** ** Tactics *)

(** A decidable statement on concrete data, by evaluation. *)
Ltac decidir := apply (bool_decide_unpack _); vm_compute; exact I.

(** A column name is not among the given ones. *)
Ltac outra_coluna :=
  repeat (apply not_elem_of_cons; split; [discriminate|]); apply not_elem_of_nil.

(** ** The monad *)

Ltac run_simpl :=
  unfold mbind, run_bind, mret, run_ret, Run.bind, Run.ret, Run.raise,
    Run.warning, Run.except; simpl.

(** ** Facts on the pandas operations *)

Lemma has_column_true c df : has_column c df = true ↔ c ∈ columns df.
Proof. unfold has_column. by rewrite bool_decide_eq_true. Qed.

Lemma has_column_false c df : has_column c df = false ↔ c ∉ columns df.
Proof. unfold has_column. by rewrite bool_decide_eq_false. Qed.

Lemma getitem_ok c df :
  c ∈ columns df → getitem c df = ([], inr ((λ r : row, r !!! c) <$> rows df)).
Proof. intros H%has_column_true. unfold getitem. by rewrite H. Qed.

Lemma getitem_KeyError c df :
  c ∉ columns df → getitem c df = ([], inl (KeyError c)).
Proof. intros H%has_column_false. unfold getitem. by rewrite H. Qed.

(** A mask computed cell by cell from a column selects the rows whose
    cell passes the test. *)
Lemma loc_pointwise (f : cell → bool) (g : row → cell) cols (rs : list row) :
  loc (f <$> (g <$> rs)) (mkDF cols rs) = mkDF cols (filter (λ r, f (g r)) rs).
Proof.
  unfold loc; simpl. f_equal.
  induction rs as [|r rs IH]; [done|].
  simpl. rewrite !filter_cons. simpl.
  destruct (f (g r)); simpl; [f_equal|]; exact IH.
Qed.

Lemma loc_ne (v : cell) (g : row → cell) cols rs :
  loc (ne v (g <$> rs)) (mkDF cols rs) = mkDF cols (filter (λ r, g r ≠ v) rs).
Proof.
  unfold ne. rewrite loc_pointwise. f_equal.
  apply list_filter_iff. intros r. by rewrite bool_decide_spec.
Qed.

Lemma loc_isin (vs : list cell) (g : row → cell) cols rs :
  loc (isin vs (g <$> rs)) (mkDF cols rs) = mkDF cols (filter (λ r, g r ∈ vs) rs).
Proof.
  unfold isin. rewrite loc_pointwise. f_equal.
  apply list_filter_iff. intros r. by rewrite bool_decide_spec.
Qed.

Lemma loc_not_isin (vs : list cell) (g : row → cell) cols rs :
  loc (invert (isin vs (g <$> rs))) (mkDF cols rs)
  = mkDF cols (filter (λ r, g r ∉ vs) rs).
Proof.
  unfold invert, isin. rewrite <- list_fmap_compose.
  rewrite loc_pointwise. f_equal.
  apply list_filter_iff. intros r. simpl.
  rewrite negb_True. by rewrite bool_decide_spec.
Qed.

Lemma loc_notna (g : row → cell) cols rs :
  loc (notna (g <$> rs)) (mkDF cols rs) = mkDF cols (filter (λ r, g r ≠ NaN) rs).
Proof.
  unfold notna. rewrite loc_pointwise. f_equal.
  apply list_filter_iff. intros r. by rewrite bool_decide_spec.
Qed.

Lemma loc_ge_datetime limit (g : row → cell) cols rs :
  loc (ge_datetime limit (g <$> rs)) (mkDF cols rs)
  = mkDF cols (filter (λ r, recente limit (g r)) rs).
Proof.
  unfold ge_datetime. rewrite loc_pointwise. f_equal.
  apply list_filter_iff. intros r. unfold recente.
  destruct (g r) as [s|n|t|]; simpl; try (split; [done|by intros (? & ? & ?)]).
  rewrite bool_decide_spec. split; [eauto|]. by intros (? & [= <-] & ?).
Qed.

(** Writing a column computed cell by cell from the table itself. *)
Lemma setitem_pointwise c (f : row → cell) cols (rs : list row) :
  setitem c (f <$> rs) (mkDF cols rs)
  = mkDF (if bool_decide (c ∈ cols) then cols else cols ++ [c])
         ((λ r : row, <[c := f r]> r) <$> rs).
Proof.
  unfold setitem, has_column; simpl. f_equal.
  induction rs as [|r rs IH]; [done|]. simpl. f_equal. exact IH.
Qed.

Lemma sort_values_ok by_ ascending df :
  Forall (λ c, c ∈ columns df) by_ →
  sort_values by_ ascending df
  = ([], inr (mkDF (columns df) (stable_sort (row_le by_ ascending) (rows df)))).
Proof.
  intros H. unfold sort_values.
  replace (filter (λ c, has_column c df = false) by_) with (@nil string); [done|].
  symmetry. induction H as [|c by_ Hc _ IH]; [done|].
  rewrite filter_cons, decide_False; [done|].
  apply has_column_true in Hc. by rewrite Hc.
Qed.

Lemma sort_values_KeyError c by_ ascending df :
  c ∉ columns df → sort_values (c :: by_) ascending df = ([], inl (KeyError c)).
Proof.
  intros H%has_column_false. unfold sort_values.
  by rewrite filter_cons, decide_True.
Qed.

Lemma drop_column_ok c cols rs :
  c ∈ cols →
  drop_column c (mkDF cols rs)
  = ([], inr (mkDF (filter (λ c', c' ≠ c) cols) ((λ r : row, delete c r) <$> rs))).
Proof. intros H%(has_column_true _ (mkDF cols rs)). unfold drop_column. by rewrite H. Qed.

Lemma filter_ne_new_column (c : string) cols :
  filter (λ c', c' ≠ c) (if bool_decide (c ∈ cols) then cols else cols ++ [c])
  = filter (λ c', c' ≠ c) cols.
Proof.
  case_bool_decide; [done|].
  rewrite filter_app, filter_cons, decide_False by (by intros []).
  by rewrite filter_nil, app_nil_r.
Qed.

Lemma elem_of_new_column (c c' : string) cols :
  c' ∈ (if bool_decide (c ∈ cols) then cols else cols ++ [c]) ↔ c' = c ∨ c' ∈ cols.
Proof.
  case_bool_decide.
  - split; [auto|]. by intros [->|].
  - rewrite elem_of_app, list_elem_of_singleton. tauto.
Qed.

Lemma Run_bind_inr {A B} (m : Run.t A) (k : A → Run.t B) ws y :
  m ≫= k = (ws, inr y) →
  ∃ w1 x w2, m = (w1, inr x) ∧ k x = (w2, inr y) ∧ ws = w1 ++ w2.
Proof.
  destruct m as [w1 [e|x]]; run_simpl; [done|].
  destruct (k x) as [w2 r] eqn:E. intros [= <- ->]. eauto 6.
Qed.

(** Two cells that are equal as entries are equal as values. *)
Lemma lookup_total_eq (r r' : row) c : r' !! c = r !! c → r' !!! c = r !!! c.
Proof. intros H. by rewrite !lookup_total_alt, H. Qed.

Lemma Run_bind_resultado {A B} w w' (x : A) (k : A → Run.t B) :
  Run.resultado ((w, inr x) ≫= k) = Run.resultado ((w', inr x) ≫= k).
Proof. run_simpl. by destruct (k x). Qed.

Lemma Run_bind_avisos {A B} w (x : A) (k : A → Run.t B) :
  Run.avisos ((w, inr x) ≫= k) = w ++ Run.avisos (k x).
Proof. run_simpl. by destruct (k x). Qed.

Lemma filter_Forall_id {A} (P : A → Prop) `{∀ x, Decision (P x)} (l : list A) :
  Forall P l → filter P l = l.
Proof.
  induction 1 as [|x l Hx _ IH]; [done|].
  by rewrite filter_cons, decide_True, IH.
Qed.

Lemma fmap_Forall_id {A} (f : A → A) (l : list A) :
  Forall (λ x, f x = x) l → f <$> l = l.
Proof.
  induction 1 as [|x l Hx _ IH]; [done|]. simpl. rewrite Hx. f_equal. exact IH.
Qed.

Lemma fmap_filter_id {A} (f : A → A) (P : A → Prop) `{∀ x, Decision (P x)}
    (l : list A) :
  Forall (λ x, f x = x ∧ P x) l → filter P (f <$> l) = l.
Proof.
  intros Hl. rewrite fmap_Forall_id.
  - apply filter_Forall_id. eapply Forall_impl; [exact Hl|]. by intros x [_ ?].
  - eapply Forall_impl; [exact Hl|]. by intros x [? _].
Qed.

Lemma mapM_Some_elem_of {A B} (f : A → option B) l k x y :
  mapM f l = Some k → x ∈ l → f x = Some y → y ∈ k.
Proof.
  intros H%mapM_Some_1 Hx Hy.
  induction H as [|x' y' l k Hxy _ IH]; [by apply elem_of_nil in Hx|].
  apply elem_of_cons in Hx as [->|Hx]; apply elem_of_cons;
    [left; congruence|auto].
Qed.

(** ** The stable insertion sort *)

Section Ordenacao.

Context {A : Type} (le : A → A → bool).

Lemma insert_by_perm x l : insert_by le x l ≡ₚ x :: l.
Proof.
  induction l as [|y l IH]; simpl; [done|].
  destruct (le x y); [done|].
  rewrite IH. apply Permutation_swap.
Qed.

Lemma stable_sort_perm l : stable_sort le l ≡ₚ l.
Proof.
  induction l as [|x l IH]; simpl; [done|].
  rewrite insert_by_perm. by rewrite IH.
Qed.

Lemma elem_of_stable_sort x l : x ∈ stable_sort le l ↔ x ∈ l.
Proof. by rewrite stable_sort_perm. Qed.

Lemma length_stable_sort l : length (stable_sort le l) = length l.
Proof. by rewrite stable_sort_perm. Qed.

Hypothesis le_total : ∀ x y, le x y = false → le y x = true.

Lemma insert_by_HdRel a x l :
  le a x = true → HdRel (λ u v, le u v = true) a l →
  HdRel (λ u v, le u v = true) a (insert_by le x l).
Proof.
  intros Hax Hal. destruct l as [|y l]; simpl; [by constructor|].
  destruct (le x y); constructor; [done|].
  by inversion Hal.
Qed.

Lemma insert_by_Sorted x l :
  Sorted (λ u v, le u v = true) l →
  Sorted (λ u v, le u v = true) (insert_by le x l).
Proof.
  induction 1 as [|y l Hl IH Hy]; simpl.
  - by repeat constructor.
  - destruct (le x y) eqn:E.
    + constructor; [by constructor|by constructor].
    + constructor; [done|]. apply insert_by_HdRel; [|done].
      by apply le_total.
Qed.

Lemma stable_sort_Sorted l : Sorted (λ u v, le u v = true) (stable_sort le l).
Proof.
  induction l as [|x l IH]; simpl; [constructor|].
  by apply insert_by_Sorted.
Qed.

End Ordenacao.

(** A list that is already in order is left as it is: the sort moves no
    row past an equal or a smaller one. *)
Lemma stable_sort_id {A} (le : A → A → bool) l :
  Sorted (λ u v, le u v = true) l → stable_sort le l = l.
Proof.
  induction 1 as [|x l Hl IH Hx]; simpl; [done|].
  rewrite IH. destruct Hx as [|y l' Hxy]; simpl; [done|].
  by rewrite Hxy.
Qed.

(** Neighbours of a sorted list are in order. *)
Lemma Sorted_lookup_succ {A} (R : relation A) l i x y :
  Sorted R l → l !! i = Some x → l !! S i = Some y → R x y.
Proof.
  intros Hl. revert i. induction Hl as [|z l Hl IH Hz]; intros i; [done|].
  destruct i as [|i]; simpl.
  - intros [= <-]. destruct Hz as [|u l' Hzu]; [done|]. by intros [= <-].
  - apply IH.
Qed.

(** ** The order of [sort_values] *)

Lemma key_lt_total asc a b :
  key_lt asc a b = false → a ≠ b → key_lt asc b a = true.
Proof.
  destruct a as [x|], b as [y|], asc; simpl; try done;
    rewrite ?bool_decide_eq_false, ?bool_decide_eq_true;
    intros ? Hne; assert (x ≠ y) by congruence; lia.
Qed.

Lemma row_le_total by_ ascending r1 r2 :
  row_le by_ ascending r1 r2 = false → row_le by_ ascending r2 r1 = true.
Proof.
  unfold row_le. revert ascending.
  induction by_ as [|c by_ IH]; intros [|asc ascending]; simpl; try done.
  intros [H1 H2]%orb_false_elim.
  destruct (decide (valor (r1 !!! c) = valor (r2 !!! c))) as [Heq|Hne].
  - rewrite bool_decide_true in H2 by done. apply IH in H2.
    apply orb_true_iff; right. apply andb_true_iff; split; [|exact H2].
    by apply bool_decide_eq_true.
  - apply orb_true_iff; left. by apply key_lt_total.
Qed.

Lemma ordem_mailing_spec (s1 s2 : row) t1 t2 k1 k2 :
  s1 !!! "DATACRIACAOOS" = Timestamp t1 → s2 !!! "DATACRIACAOOS" = Timestamp t2 →
  s1 !!! "Prioridade Motivo" = Num k1 → s2 !!! "Prioridade Motivo" = Num k2 →
  ordem_mailing s1 s2 = true → t2 ≤ t1 ∧ (t1 = t2 → k1 ≤ k2).
Proof.
  intros Hd1 Hd2 Hp1 Hp2. unfold ordem_mailing, row_le. simpl.
  rewrite Hd1, Hd2, Hp1, Hp2. simpl.
  repeat case_bool_decide; simpl; intros; simplify_eq; try done; lia.
Qed.

Lemma ordem_mailing_Sorted rs :
  Sorted (λ u v, ordem_mailing u v = true) (stable_sort ordem_mailing rs).
Proof. apply stable_sort_Sorted, row_le_total. Qed.

(** ** The priority dictionary *)

Lemma prioridade_map_snoc cats c :
  prioridade_map (cats ++ [c])
  = <[c := Z.of_nat (length cats) + 1]> (prioridade_map cats).
Proof.
  unfold prioridade_map. rewrite imap_app, foldl_app. simpl.
  by rewrite Nat.add_0_r.
Qed.

Lemma prioridade_map_lookup cats c k :
  prioridade_map cats !! c = Some k
  ↔ ∃ i, k = Z.of_nat i + 1 ∧ ultima_posicao cats c i.
Proof.
  unfold ultima_posicao. revert k.
  induction cats as [|x l IH] using rev_ind; intros k.
  { unfold prioridade_map. simpl. rewrite lookup_empty.
    split; [done|]. by intros (i & _ & ? & _). }
  rewrite prioridade_map_snoc. destruct (decide (x = c)) as [->|Hne].
  - rewrite lookup_insert_eq. split.
    + intros [= <-]. exists (length l). split; [done|]. split.
      * by rewrite list_lookup_middle.
      * intros j Hj. rewrite lookup_ge_None_2; [done|].
        rewrite length_app. simpl. lia.
    + intros (i & -> & Hi & Hlast).
      destruct (decide (i = length l)) as [->|Hil]; [done|].
      apply lookup_lt_Some in Hi as Hlt. rewrite length_app in Hlt. simpl in Hlt.
      destruct (Hlast (length l)); [lia|]. by rewrite list_lookup_middle.
  - rewrite lookup_insert_ne by done. rewrite IH.
    split; intros (i & -> & Hi & Hlast); exists i; (split; [done|]); split.
    + by apply lookup_app_l_Some.
    + intros j Hj [[_ Hl]|[_ ?]]%lookup_snoc_Some; [|done].
      by apply (Hlast j).
    + by apply lookup_snoc_Some in Hi as [[_ Hl]|[_ ?]].
    + intros j Hj Hl. apply (Hlast j Hj). by apply lookup_app_l_Some.
Qed.

Lemma prioridade_map_elem_of cats c k :
  prioridade_map cats !! c = Some k →
  1 ≤ k ∧ cats !! Z.to_nat (k - 1) = Some c ∧ c ∈ cats.
Proof.
  intros (i & -> & Hi & _)%prioridade_map_lookup.
  replace (Z.to_nat (Z.of_nat i + 1 - 1)) with i by lia.
  split; [lia|]. split; [done|]. by eapply list_elem_of_lookup_2.
Qed.

Lemma prioridade_map_is_Some cats c :
  c ∈ cats → is_Some (prioridade_map cats !! c).
Proof.
  induction cats as [|x l IH] using rev_ind; [by intros ?%elem_of_nil|].
  rewrite prioridade_map_snoc. intros [Hc| ->%list_elem_of_singleton]%elem_of_app.
  - rewrite lookup_insert. case_decide; [by eexists|auto].
  - rewrite lookup_insert_eq. by eexists.
Qed.

(** ** Rows that come from rows *)

Lemma deriva_refl X rs : deriva X rs rs.
Proof. intros r Hr. eauto. Qed.

Lemma deriva_trans X Y rs1 rs2 rs3 :
  deriva X rs1 rs2 → deriva Y rs2 rs3 → deriva (X ++ Y) rs1 rs3.
Proof.
  intros H12 H23 r3 Hr3.
  destruct (H23 _ Hr3) as (r2 & Hr2 & E2).
  destruct (H12 _ Hr2) as (r1 & Hr1 & E1).
  exists r1. split; [done|]. intros c Hc.
  rewrite elem_of_app in Hc. rewrite E2, E1; tauto.
Qed.

Lemma deriva_mono X Y rs rs' : X ⊆ Y → deriva X rs rs' → deriva Y rs rs'.
Proof.
  intros HXY H r' Hr'. destruct (H _ Hr') as (r & Hr & E).
  exists r. split; [done|]. intros c Hc. apply E. intros Hc'. by apply Hc, HXY.
Qed.

Lemma deriva_Forall X (P Q : row → Prop) rs rs' :
  deriva X rs rs' → Forall P rs →
  (∀ r r', P r → (∀ c, c ∉ X → r' !! c = r !! c) → Q r') →
  Forall Q rs'.
Proof.
  intros H HP HPQ. apply Forall_forall. intros r' Hr'.
  destruct (H _ Hr') as (r & Hr & E).
  rewrite Forall_forall in HP. eauto.
Qed.

Lemma passo_refl X d : passo X d d.
Proof.
  split; [done|]. exists id. split; [done|]. by rewrite list_fmap_id.
Qed.

Lemma passo_trans X Y d1 d2 d3 :
  passo X d1 d2 → passo Y d2 d3 → passo (X ++ Y) d1 d3.
Proof.
  intros [C12 (f & Hf & S12)] [C23 (g & Hg & S23)].
  split; [congruence|]. exists (g ∘ f). split.
  - intros r c Hc. rewrite elem_of_app in Hc. simpl. rewrite Hg, Hf; tauto.
  - etrans; [exact S23|]. rewrite list_fmap_compose. by apply fmap_sublist.
Qed.

Lemma passo_mono X Y d d' : X ⊆ Y → passo X d d' → passo Y d d'.
Proof.
  intros HXY [C (f & Hf & S)]. split; [done|]. exists f. split; [|done].
  intros r c Hc. apply Hf. intros Hc'. by apply Hc, HXY.
Qed.

Lemma passo_deriva X d d' : passo X d d' → deriva X (rows d) (rows d').
Proof.
  intros [_ (f & Hf & S)] r' Hr'.
  apply (elem_of_sublist _ _ _ Hr') in S.
  apply list_elem_of_fmap in S as (r & -> & Hr). eauto.
Qed.

(** The two shapes the filtering steps take. *)
Lemma passo_filter (P : row → Prop) `{∀ r, Decision (P r)} X d :
  passo X d (mkDF (columns d) (filter P (rows d))).
Proof.
  split; [done|]. exists id. split; [done|].
  rewrite list_fmap_id. apply sublist_filter.
Qed.

Lemma passo_filter_setitem (P : row → Prop) `{∀ r, Decision (P r)}
    c (g : row → cell) d :
  passo [c] d (mkDF (columns d) (filter P ((λ r : row, <[c := g r]> r) <$> rows d))).
Proof.
  split; [done|]. exists (λ r : row, <[c := g r]> r). split.
  - intros r c' Hc'. apply lookup_insert_ne.
    intros <-. apply Hc', list_elem_of_here.
  - apply sublist_filter.
Qed.

(** ** Each step in closed form *)

Section Passos.

Context (py_int : string → option Z).
Context (parse_numeric parse_datetime : cell → option Z).

(** A lemma depends on the parsers its statement names, no others. *)
Set Default Proof Using "Type".

Local Abbreviation to_numeric := (to_numeric parse_numeric).
Local Abbreviation to_datetime := (to_datetime parse_datetime).
Local Abbreviation remover_pagadores := (remover_pagadores py_int parse_numeric).
Local Abbreviation filtrar_data := (filtrar_data parse_datetime).
Local Abbreviation processar :=
  (processar_dados_churn_com_motivos py_int parse_numeric parse_datetime).

(** *** Payer removal *)

Lemma remover_pagadores_vazio df : remover_pagadores df [] = ([], inr df).
Proof. done. Qed.

Lemma remover_pagadores_sem_coluna df ps :
  coluna_pagador df = None → remover_pagadores df ps = ([], inr df).
Proof.
  unfold coluna_pagador, remover_pagadores. intros H.
  case_bool_decide; [done|].
  destruct (has_column "PAGADOR" df); [done|].
  destruct (has_column "Pagador" df); done.
Qed.

Lemma remover_pagadores_nao_inteiros df ps c :
  ps ≠ [] → coluna_pagador df = Some c → mapM py_int ps = None →
  remover_pagadores df ps
  = (avisos_coluna_pagador df ++ [AvisoPagadoresNaoInteiros], inr df).
Proof.
  unfold coluna_pagador, avisos_coluna_pagador, remover_pagadores.
  intros Hps Hc Hint. rewrite bool_decide_false by done.
  destruct (has_column "PAGADOR" df); run_simpl.
  - by rewrite Hint.
  - destruct (has_column "Pagador" df); [|done]. run_simpl. by rewrite Hint.
Qed.

Lemma coluna_pagador_elem df c : coluna_pagador df = Some c → c ∈ columns df.
Proof.
  unfold coluna_pagador.
  destruct (has_column "PAGADOR" df) eqn:E1;
    [intros [= <-]; by apply has_column_true|].
  destruct (has_column "Pagador" df) eqn:E2; [|done].
  intros [= <-]; by apply has_column_true.
Qed.

Lemma filtrar_pagadores_ok c (ints : list Z) df :
  c ∈ columns df →
  filtrar_pagadores parse_numeric c ints df
  = ([], inr (mkDF (columns df)
       (filter (λ r : row, r !!! c ∉ Num <$> ints)
          ((λ r : row, <[c := to_numeric (r !!! c)]> r) <$> rows df)))).
Proof.
  destruct df as [cols rs]. simpl. intros Hc.
  unfold filtrar_pagadores. rewrite getitem_ok by done. run_simpl.
  rewrite <- list_fmap_compose.
  rewrite (setitem_pointwise c (to_numeric ∘ (λ r : row, r !!! c))).
  rewrite bool_decide_true by done.
  rewrite getitem_ok by done. simpl.
  by rewrite loc_not_isin.
Qed.

Lemma remover_pagadores_ok df ps c (ints : list Z) :
  ps ≠ [] → coluna_pagador df = Some c → mapM py_int ps = Some ints →
  remover_pagadores df ps
  = (avisos_coluna_pagador df,
     inr (mkDF (columns df)
       (filter (λ r : row, r !!! c ∉ Num <$> ints)
          ((λ r : row, <[c := to_numeric (r !!! c)]> r) <$> rows df)))).
Proof.
  intros Hps Hc Hint. pose proof (coluna_pagador_elem _ _ Hc) as Hin.
  revert Hc. unfold coluna_pagador, avisos_coluna_pagador, remover_pagadores.
  rewrite bool_decide_false by done.
  destruct (has_column "PAGADOR" df); run_simpl.
  - intros [= <-]. rewrite Hint. by rewrite filtrar_pagadores_ok.
  - destruct (has_column "Pagador" df); [|done]. run_simpl.
    intros [= <-]. rewrite Hint. by rewrite filtrar_pagadores_ok.
Qed.

(** *** Churn type and legal form *)

Lemma filtros_padrao_ok df :
  "Tipo de Churn" ∈ columns df → "FORMAJURIDICA" ∈ columns df →
  filtros_padrao df
  = ([], inr (mkDF (columns df)
       (filter (λ r : row, r !!! "FORMAJURIDICA" ≠ Str "C1")
          (filter (λ r : row, r !!! "Tipo de Churn" ≠ Str "Involuntário")
             (rows df))))).
Proof.
  destruct df as [cols rs]. simpl. intros H1 H2.
  unfold filtros_padrao. rewrite getitem_ok by done. run_simpl.
  rewrite loc_ne. rewrite getitem_ok by done. simpl.
  by rewrite loc_ne.
Qed.

Lemma filtros_padrao_sem_churn df :
  "Tipo de Churn" ∉ columns df →
  filtros_padrao df = ([], inl (KeyError "Tipo de Churn")).
Proof.
  intros H. unfold filtros_padrao. by rewrite getitem_KeyError.
Qed.

Lemma filtros_padrao_sem_forma df :
  "Tipo de Churn" ∈ columns df → "FORMAJURIDICA" ∉ columns df →
  filtros_padrao df = ([], inl (KeyError "FORMAJURIDICA")).
Proof.
  destruct df as [cols rs]. simpl. intros H1 H2.
  unfold filtros_padrao. rewrite getitem_ok by done. run_simpl.
  rewrite loc_ne. by rewrite getitem_KeyError.
Qed.

(** *** The recency window *)

Lemma filtrar_data_ok limite df :
  "DATACRIACAOOS" ∈ columns df →
  filtrar_data limite df
  = ([], inr (mkDF (columns df)
       (filter (λ r : row, recente limite (r !!! "DATACRIACAOOS"))
          (filter (λ r : row, r !!! "DATACRIACAOOS" ≠ NaN)
             ((λ r : row, <["DATACRIACAOOS" :=
                             to_datetime (r !!! "DATACRIACAOOS")]> r)
              <$> rows df))))).
Proof.
  destruct df as [cols rs]. simpl. intros Hc.
  unfold filtrar_data.
  rewrite (proj2 (has_column_true _ (mkDF cols rs)) Hc).
  rewrite getitem_ok by done. run_simpl.
  rewrite <- list_fmap_compose.
  rewrite (setitem_pointwise _ (to_datetime ∘ (λ r : row, r !!! "DATACRIACAOOS"))).
  rewrite bool_decide_true by done.
  rewrite getitem_ok by done. simpl. rewrite loc_notna.
  rewrite getitem_ok by done. simpl. by rewrite loc_ge_datetime.
Qed.

Lemma filtrar_data_sem_coluna limite df :
  "DATACRIACAOOS" ∉ columns df →
  filtrar_data limite df = ([AvisoSemData], inr df).
Proof.
  intros H%has_column_false. unfold filtrar_data. by rewrite H.
Qed.

(** *** Delinquency *)

Lemma filtrar_inadimplentes_ok df :
  "STATUSINADIMPLENTE" ∈ columns df →
  filtrar_inadimplentes df
  = ([], inr (mkDF (columns df)
       (filter (λ r : row, r !!! "STATUSINADIMPLENTE" ≠ Str "I") (rows df)))).
Proof.
  destruct df as [cols rs]. simpl. intros Hc.
  unfold filtrar_inadimplentes.
  rewrite (proj2 (has_column_true _ (mkDF cols rs)) Hc).
  rewrite getitem_ok by done. run_simpl. by rewrite loc_ne.
Qed.

Lemma filtrar_inadimplentes_sem_coluna df :
  "STATUSINADIMPLENTE" ∉ columns df →
  filtrar_inadimplentes df = ([AvisoSemInadimplencia], inr df).
Proof.
  intros H%has_column_false. unfold filtrar_inadimplentes. by rewrite H.
Qed.

(** *** Category filter and priority sort *)

Lemma atribuir_prioridade_ok cats df :
  "CATEGORIA4" ∈ columns df →
  atribuir_prioridade cats df
  = ([], inr (mkDF (if bool_decide ("Prioridade Motivo" ∈ columns df)
                    then columns df else columns df ++ ["Prioridade Motivo"])
                   (linhas_priorizadas cats (rows df)))).
Proof.
  destruct df as [cols rs]. simpl. intros Hc.
  unfold atribuir_prioridade.
  rewrite getitem_ok by done. run_simpl. rewrite loc_isin.
  rewrite getitem_ok by done. simpl. unfold series_map.
  rewrite <- list_fmap_compose.
  by rewrite (setitem_pointwise _
    (map_cell (prioridade_map cats) ∘ (λ r : row, r !!! "CATEGORIA4"))).
Qed.

Lemma filtrar_categorias_ok cats df :
  "CATEGORIA4" ∈ columns df → "DATACRIACAOOS" ∈ columns df →
  filtrar_categorias cats df
  = ([], inr (mkDF (filter (λ c, c ≠ "Prioridade Motivo") (columns df))
       ((λ r : row, delete "Prioridade Motivo" r)
        <$> stable_sort ordem_mailing (linhas_priorizadas cats (rows df))))).
Proof.
  intros Hc Hd. unfold filtrar_categorias.
  rewrite (proj2 (has_column_true _ _) Hc).
  rewrite atribuir_prioridade_ok by done. run_simpl.
  rewrite sort_values_ok; simpl.
  - rewrite drop_column_ok by (apply elem_of_new_column; by left).
    by rewrite filter_ne_new_column.
  - repeat constructor; apply elem_of_new_column; auto.
Qed.

Lemma filtrar_categorias_sem_data cats df :
  "CATEGORIA4" ∈ columns df → "DATACRIACAOOS" ∉ columns df →
  filtrar_categorias cats df = ([], inl (KeyError "DATACRIACAOOS")).
Proof.
  intros Hc Hd. unfold filtrar_categorias.
  rewrite (proj2 (has_column_true _ _) Hc).
  rewrite atribuir_prioridade_ok by done. run_simpl.
  rewrite sort_values_KeyError; [done|]. simpl.
  rewrite elem_of_new_column. by intros [|].
Qed.

Lemma filtrar_categorias_sem_coluna cats df :
  "CATEGORIA4" ∉ columns df →
  filtrar_categorias cats df = ([AvisoSemCategoria], inr df).
Proof.
  intros H%has_column_false. unfold filtrar_categorias. by rewrite H.
Qed.

(** *** Every step as a [passo] *)

Lemma coluna_pagador_cases df c :
  coluna_pagador df = Some c → c = "PAGADOR" ∨ c = "Pagador".
Proof.
  unfold coluna_pagador.
  destruct (has_column "PAGADOR" df); [intros [= <-]; by left|].
  destruct (has_column "Pagador" df); [intros [= <-]; by right|done].
Qed.

(** The payer removal never raises. *)
Lemma remover_pagadores_passo df ps :
  ∃ w d1, remover_pagadores df ps = (w, inr d1)
          ∧ passo ["PAGADOR"; "Pagador"] df d1.
Proof.
  destruct (decide (ps = [])) as [->|Hps].
  { eexists _, _. split; [apply remover_pagadores_vazio|apply passo_refl]. }
  destruct (coluna_pagador df) as [c|] eqn:Hc.
  2: { eexists _, _. split; [by apply remover_pagadores_sem_coluna|apply passo_refl]. }
  destruct (mapM py_int ps) as [ints|] eqn:Hint.
  2: { eexists _, _. split; [by eapply remover_pagadores_nao_inteiros|apply passo_refl]. }
  eexists _, _. split; [by eapply remover_pagadores_ok|].
  eapply passo_mono; [|apply passo_filter_setitem].
  intros x ->%list_elem_of_singleton. apply elem_of_cons.
  apply coluna_pagador_cases in Hc as [->| ->]; [by left|right].
  by apply list_elem_of_singleton.
Qed.

(** The [except Exception] branch of line 57 is never taken: the [try]
    block only reads and writes the column that was found. *)
Lemma remover_pagadores_sem_erro df ps e :
  ErroFiltroPagadores e ∉ Run.avisos (remover_pagadores df ps).
Proof.
  assert (∀ ws, ErroFiltroPagadores e ∉ avisos_coluna_pagador df ++ ws
                ↔ ErroFiltroPagadores e ∉ ws) as Hcol.
  { intros ws. unfold avisos_coluna_pagador.
    destruct (has_column "PAGADOR" df); [done|].
    destruct (has_column "Pagador" df); [|done].
    simpl. rewrite not_elem_of_cons. split; [by intros [_ ?]|done]. }
  destruct (decide (ps = [])) as [->|Hps].
  { rewrite remover_pagadores_vazio. apply not_elem_of_nil. }
  destruct (coluna_pagador df) as [c|] eqn:Hc.
  2: { rewrite remover_pagadores_sem_coluna by done. apply not_elem_of_nil. }
  destruct (mapM py_int ps) as [ints|] eqn:Hint.
  - rewrite (remover_pagadores_ok _ _ _ _ Hps Hc Hint). simpl.
    rewrite <- (app_nil_r (avisos_coluna_pagador df)).
    apply Hcol, not_elem_of_nil.
  - rewrite (remover_pagadores_nao_inteiros _ _ _ Hps Hc Hint). simpl.
    apply Hcol. rewrite list_elem_of_singleton. discriminate.
Qed.

Lemma filtros_padrao_inr d w d' :
  filtros_padrao d = (w, inr d') →
  "Tipo de Churn" ∈ columns d ∧ "FORMAJURIDICA" ∈ columns d ∧ w = [] ∧
  d' = mkDF (columns d)
         (filter (λ r : row, r !!! "FORMAJURIDICA" ≠ Str "C1")
            (filter (λ r : row, r !!! "Tipo de Churn" ≠ Str "Involuntário")
               (rows d))).
Proof.
  destruct (decide ("Tipo de Churn" ∈ columns d)) as [H1|H1].
  2: { by rewrite filtros_padrao_sem_churn. }
  destruct (decide ("FORMAJURIDICA" ∈ columns d)) as [H2|H2].
  2: { by rewrite filtros_padrao_sem_forma. }
  rewrite filtros_padrao_ok by done. by intros [= <- <-].
Qed.

Lemma filtros_padrao_passo d w d' :
  filtros_padrao d = (w, inr d') → passo [] d d'.
Proof.
  intros (_ & _ & _ & ->)%filtros_padrao_inr.
  apply (passo_trans [] [] _
           (mkDF (columns d)
              (filter (λ r : row, r !!! "Tipo de Churn" ≠ Str "Involuntário")
                 (rows d)))).
  - apply passo_filter.
  - apply (passo_filter (λ r : row, r !!! "FORMAJURIDICA" ≠ Str "C1") []
             (mkDF _ _)).
Qed.

(** The recency step never raises. *)
Lemma filtrar_data_passo limite d :
  ∃ w d', filtrar_data limite d = (w, inr d') ∧ passo ["DATACRIACAOOS"] d d'.
Proof.
  destruct (decide ("DATACRIACAOOS" ∈ columns d)) as [H|H].
  2: { eexists _, _. split; [by apply filtrar_data_sem_coluna|apply passo_refl]. }
  eexists _, _. split; [by apply filtrar_data_ok|].
  apply (passo_trans ["DATACRIACAOOS"] [] _
           (mkDF (columns d)
              (filter (λ r : row, r !!! "DATACRIACAOOS" ≠ NaN)
                 ((λ r : row, <["DATACRIACAOOS" :=
                                 to_datetime (r !!! "DATACRIACAOOS")]> r)
                  <$> rows d)))).
  - apply (passo_filter_setitem _ _ (λ r, to_datetime (r !!! "DATACRIACAOOS"))).
  - apply (passo_filter (λ r : row, recente limite (r !!! "DATACRIACAOOS")) []
             (mkDF _ _)).
Qed.

(** The delinquency step never raises. *)
Lemma filtrar_inadimplentes_passo d :
  ∃ w d', filtrar_inadimplentes d = (w, inr d') ∧ passo [] d d'.
Proof.
  destruct (decide ("STATUSINADIMPLENTE" ∈ columns d)) as [H|H].
  - eexists _, _. split; [by apply filtrar_inadimplentes_ok|apply passo_filter].
  - eexists _, _. split;
      [by apply filtrar_inadimplentes_sem_coluna|apply passo_refl].
Qed.

Lemma remover_pagadores_inr_passo df ps w d1 :
  remover_pagadores df ps = (w, inr d1) → passo ["PAGADOR"; "Pagador"] df d1.
Proof.
  destruct (remover_pagadores_passo df ps) as (w' & d' & -> & H).
  by intros [= _ <-].
Qed.

Lemma filtrar_data_inr_passo limite d w d' :
  filtrar_data limite d = (w, inr d') → passo ["DATACRIACAOOS"] d d'.
Proof.
  destruct (filtrar_data_passo limite d) as (w' & d'' & -> & H).
  by intros [= _ <-].
Qed.

Lemma filtrar_inadimplentes_inr_passo d w d' :
  filtrar_inadimplentes d = (w, inr d') → passo [] d d'.
Proof.
  destruct (filtrar_inadimplentes_passo d) as (w' & d'' & -> & H).
  by intros [= _ <-].
Qed.

Lemma filtrar_categorias_inr cats d w out :
  filtrar_categorias cats d = (w, inr out) →
  (("CATEGORIA4" ∉ columns d) ∧ w = [AvisoSemCategoria] ∧ out = d)
  ∨ ("CATEGORIA4" ∈ columns d ∧ "DATACRIACAOOS" ∈ columns d ∧ w = [] ∧
     out = mkDF (filter (λ c, c ≠ "Prioridade Motivo") (columns d))
             ((λ r : row, delete "Prioridade Motivo" r)
              <$> (stable_sort ordem_mailing
                     (linhas_priorizadas cats (rows d))))).
Proof.
  destruct (decide ("CATEGORIA4" ∈ columns d)) as [H1|H1].
  2: { rewrite filtrar_categorias_sem_coluna by done. intros [= <- <-]. by left. }
  destruct (decide ("DATACRIACAOOS" ∈ columns d)) as [H2|H2].
  2: { by rewrite filtrar_categorias_sem_data. }
  rewrite filtrar_categorias_ok by done. intros [= <- <-]. by right.
Qed.

Lemma linhas_priorizadas_deriva cats rs :
  deriva ["Prioridade Motivo"] rs (linhas_priorizadas cats rs).
Proof.
  intros r' (r & -> & Hr)%list_elem_of_fmap.
  apply list_elem_of_filter in Hr as [_ Hr].
  exists r. split; [done|]. intros c Hc. apply lookup_insert_ne.
  intros <-. apply Hc, list_elem_of_here.
Qed.

Lemma filtrar_categorias_deriva cats d w out :
  filtrar_categorias cats d = (w, inr out) →
  deriva ["Prioridade Motivo"] (rows d) (rows out).
Proof.
  intros [(_ & _ & ->)|(_ & _ & _ & ->)]%filtrar_categorias_inr;
    [apply deriva_refl|]. simpl.
  intros r' (r1 & -> & Hr1)%list_elem_of_fmap.
  apply elem_of_stable_sort in Hr1.
  apply linhas_priorizadas_deriva in Hr1 as (r & Hr & E).
  exists r. split; [done|]. intros c Hc.
  rewrite lookup_delete_ne by (intros <-; apply Hc, list_elem_of_here).
  by apply E.
Qed.

(** *** The pipeline, step by step *)

Lemma processar_inr now df cats ps ws out :
  processar now df cats ps = (ws, inr out) →
  ∃ w1 d1 d2 w3 d3 w4 d4 w5,
    remover_pagadores df ps = (w1, inr d1) ∧
    filtros_padrao d1 = ([], inr d2) ∧
    filtrar_data (now - timedelta_days 60) d2 = (w3, inr d3) ∧
    filtrar_inadimplentes d3 = (w4, inr d4) ∧
    filtrar_categorias cats d4 = (w5, inr out) ∧
    ws = w1 ++ w3 ++ w4 ++ w5.
Proof.
  unfold processar_dados_churn_com_motivos.
  intros (w1 & d1 & v1 & H1 & H & ->)%Run_bind_inr.
  apply Run_bind_inr in H as (w2 & d2 & v2 & H2 & H & ->).
  apply Run_bind_inr in H as (w3 & d3 & v3 & H3 & H & ->).
  apply Run_bind_inr in H as (w4 & d4 & v4 & H4 & H & ->).
  apply Run_bind_inr in H as (w5 & d5 & v5 & H5 & H & ->).
  injection H as <- <-.
  pose proof (filtros_padrao_inr _ _ _ H2) as (_ & _ & -> & _).
  exists w1, d1, d2, w3, d3, w4, d4, w5.
  by rewrite app_nil_r.
Qed.

Lemma processar_passos now df cats ps w1 d1 w2 d2 w3 d3 w4 d4 w5 r :
  remover_pagadores df ps = (w1, inr d1) →
  filtros_padrao d1 = (w2, inr d2) →
  filtrar_data (now - timedelta_days 60) d2 = (w3, inr d3) →
  filtrar_inadimplentes d3 = (w4, inr d4) →
  filtrar_categorias cats d4 = (w5, r) →
  processar now df cats ps = (w1 ++ w2 ++ w3 ++ w4 ++ w5, r).
Proof.
  intros H1 H2 H3 H4 H5. unfold processar_dados_churn_com_motivos.
  rewrite H1. run_simpl. rewrite H2. simpl. rewrite H3. simpl.
  rewrite H4. simpl. rewrite H5. destruct r as [e|out]; simpl; [done|].
  by rewrite app_nil_r.
Qed.

Lemma processar_erro_padrao now df cats ps w1 d1 w2 e :
  remover_pagadores df ps = (w1, inr d1) →
  filtros_padrao d1 = (w2, inl e) →
  processar now df cats ps = (w1 ++ w2, inl e).
Proof.
  intros H1 H2. unfold processar_dados_churn_com_motivos.
  rewrite H1. run_simpl. by rewrite H2.
Qed.

Lemma atribuir_prioridade_inr cats df w d :
  atribuir_prioridade cats df = (w, inr d) →
  "CATEGORIA4" ∈ columns df ∧ rows d = linhas_priorizadas cats (rows df).
Proof.
  destruct (decide ("CATEGORIA4" ∈ columns df)) as [H|H].
  - rewrite atribuir_prioridade_ok by done. by intros [= _ <-].
  - unfold atribuir_prioridade. by rewrite getitem_KeyError.
Qed.

(** The rows of [linhas_priorizadas]: an allowed category, and its
    entry of the dictionary in the priority column. *)
Lemma elem_of_linhas_priorizadas cats rs r :
  r ∈ linhas_priorizadas cats rs →
  ∃ r0 c k, r0 ∈ rs ∧ r = <["Prioridade Motivo" := Num k]> r0 ∧
            r0 !!! "CATEGORIA4" = Str c ∧ c ∈ cats ∧
            prioridade_map cats !! c = Some k.
Proof.
  intros (r0 & -> & Hr0)%list_elem_of_fmap.
  apply list_elem_of_filter in Hr0 as [Hcat Hr0].
  apply list_elem_of_fmap in Hcat as (c & Hc & Hin).
  destruct (prioridade_map_is_Some _ _ Hin) as [k Hk].
  exists r0, c, k. rewrite Hc. simpl. by rewrite Hk.
Qed.

(** *** What each filter leaves in the table *)

Lemma to_numeric_cases v : to_numeric v = NaN ∨ ∃ n, to_numeric v = Num n.
Proof.
  destruct v; simpl; eauto; destruct (parse_numeric _); eauto.
Qed.

Lemma to_numeric_idemp v : to_numeric (to_numeric v) = to_numeric v.
Proof. by destruct (to_numeric_cases v) as [->|[n ->]]. Qed.

Lemma to_datetime_ordenavel v :
  to_datetime v = NaN ∨ ∃ t, to_datetime v = Timestamp t.
Proof.
  destruct v; simpl; eauto; destruct (parse_datetime _); eauto.
Qed.

Lemma series_map_ordenavel d v : map_cell d v = NaN ∨ ∃ k, map_cell d v = Num k.
Proof.
  destruct v as [s| | |]; simpl; eauto. destruct (d !! s); eauto.
Qed.

Lemma pagadores_apos_filtro df ps c (ints : list Z) w d1 :
  ps ≠ [] → coluna_pagador df = Some c → mapM py_int ps = Some ints →
  remover_pagadores df ps = (w, inr d1) →
  Forall (λ r : row, ∃ r0, r0 ∈ rows df ∧
                           r = <[c := to_numeric (r0 !!! c)]> r0 ∧
                           to_numeric (r0 !!! c) ∉ Num <$> ints) (rows d1).
Proof.
  intros Hps Hc Hint. rewrite (remover_pagadores_ok _ _ _ _ Hps Hc Hint).
  intros [= _ <-]. simpl. apply Forall_forall. intros r [Hr Hin]%list_elem_of_filter.
  apply list_elem_of_fmap in Hin as (r0 & -> & Hr0).
  rewrite lookup_total_insert_eq in Hr. eauto.
Qed.

Lemma datas_apos_filtro limite d w d' :
  "DATACRIACAOOS" ∈ columns d →
  filtrar_data limite d = (w, inr d') →
  Forall (λ r : row, ∃ r0 t, r0 ∈ rows d ∧
                             r = <["DATACRIACAOOS" := Timestamp t]> r0 ∧
                             to_datetime (r0 !!! "DATACRIACAOOS") = Timestamp t ∧
                             limite ≤ t) (rows d').
Proof.
  intros Hc. rewrite filtrar_data_ok by done. intros [= _ <-]. simpl.
  apply Forall_forall. intros r [(t & Ht & Hlim) Hr]%list_elem_of_filter.
  apply list_elem_of_filter in Hr as [_ Hr].
  apply list_elem_of_fmap in Hr as (r0 & -> & Hr0).
  rewrite lookup_total_insert_eq in Ht. exists r0, t. by rewrite Ht.
Qed.

(** The rows given to the sort of line 93, on a table that has passed
    the date filter. *)
Lemma linhas_priorizadas_ordenaveis cats rs s :
  Forall (λ r : row, ∃ t, r !!! "DATACRIACAOOS" = Timestamp t) rs →
  s ∈ linhas_priorizadas cats rs →
  ∃ t c k, s !!! "DATACRIACAOOS" = Timestamp t ∧
           s !!! "CATEGORIA4" = Str c ∧ c ∈ cats ∧
           prioridade_map cats !! c = Some k ∧
           s !! "Prioridade Motivo" = Some (Num k).
Proof.
  intros Hrs (r0 & c & k & Hr0 & -> & Hc & Hin & Hk)%elem_of_linhas_priorizadas.
  rewrite Forall_forall in Hrs. destruct (Hrs _ Hr0) as [t Ht].
  exists t, c, k. rewrite !lookup_total_insert_ne by discriminate.
  by rewrite lookup_insert_eq.
Qed.

Lemma datas_apos_inadimplentes limite d2 w3 d3 w4 d4 :
  "DATACRIACAOOS" ∈ columns d2 →
  filtrar_data limite d2 = (w3, inr d3) →
  filtrar_inadimplentes d3 = (w4, inr d4) →
  Forall (λ r : row, ∃ t, r !! "DATACRIACAOOS" = Some (Timestamp t) ∧ limite ≤ t)
         (rows d4).
Proof.
  intros Hc H3 H4%filtrar_inadimplentes_inr_passo%passo_deriva.
  eapply deriva_Forall; [exact H4|exact (datas_apos_filtro _ _ _ _ Hc H3)|].
  simpl. intros r3 r (r2 & t & _ & -> & _ & Hlim) E. exists t.
  rewrite E by apply not_elem_of_nil. by rewrite lookup_insert_eq.
Qed.

(** *** What the later steps leave alone *)

(** Running the category step on its own result changes nothing. *)
Lemma filtrar_categorias_fix cats d w out :
  filtrar_categorias cats d = (w, inr out) →
  filtrar_categorias cats out = (w, inr out).
Proof.
  intros [(Hn & -> & ->)|(Hc & Hd & -> & ->)]%filtrar_categorias_inr.
  { by apply filtrar_categorias_sem_coluna. }
  set (S := stable_sort ordem_mailing (linhas_priorizadas cats (rows d))).
  rewrite filtrar_categorias_ok; simpl.
  2, 3: apply list_elem_of_filter; split; [discriminate|done].
  f_equal. f_equal. f_equal.
  { apply filter_Forall_id, Forall_forall. by intros c [? _]%list_elem_of_filter. }
  f_equal.
  assert (linhas_priorizadas cats ((λ r : row, delete "Prioridade Motivo" r) <$> S)
          = S) as ->.
  2: { apply stable_sort_id, ordem_mailing_Sorted. }
  assert (Forall (λ s : row, ∃ r0 c k,
              s = <["Prioridade Motivo" := Num k]> r0 ∧
              r0 !!! "CATEGORIA4" = Str c ∧ c ∈ cats ∧
              prioridade_map cats !! c = Some k) S) as HS.
  { apply Forall_forall. intros s Hs%elem_of_stable_sort.
    apply elem_of_linhas_priorizadas in Hs as (r0 & c & k & _ & ? & ? & ? & ?).
    eauto 8. }
  unfold linhas_priorizadas. rewrite filter_Forall_id.
  - rewrite <- list_fmap_compose. apply fmap_Forall_id.
    eapply Forall_impl; [exact HS|]. simpl.
    intros s (r0 & c & k & -> & Hcat & _ & Hk).
    rewrite lookup_total_delete_ne, lookup_total_insert_ne by discriminate.
    rewrite Hcat. simpl. rewrite Hk.
    by rewrite insert_delete_eq, insert_insert_eq.
  - apply Forall_fmap. eapply Forall_impl; [exact HS|]. simpl.
    intros s (r0 & c & k & -> & Hcat & Hin & _).
    rewrite lookup_total_delete_ne, lookup_total_insert_ne by discriminate.
    rewrite Hcat. by apply list_elem_of_fmap_2.
Qed.

(** Each of the other steps returns a table as it is when its rows
    come from rows the step has already let through. *)
Lemma remover_pagadores_fix df ps w d1 out :
  remover_pagadores df ps = (w, inr d1) →
  has_column "PAGADOR" out = has_column "PAGADOR" df →
  has_column "Pagador" out = has_column "Pagador" df →
  deriva ["DATACRIACAOOS"; "Prioridade Motivo"] (rows d1) (rows out) →
  remover_pagadores out ps = (w, inr out).
Proof.
  intros H1 Hp1 Hp2 D.
  assert (coluna_pagador out = coluna_pagador df
          ∧ avisos_coluna_pagador out = avisos_coluna_pagador df) as [Ec Ea]
    by (unfold coluna_pagador, avisos_coluna_pagador; by rewrite Hp1, Hp2).
  destruct (decide (ps = [])) as [->|Hps].
  { rewrite remover_pagadores_vazio in H1. rewrite remover_pagadores_vazio.
    by injection H1 as <- _. }
  destruct (coluna_pagador df) as [c|] eqn:Hc.
  2: { rewrite remover_pagadores_sem_coluna in H1 by done.
       rewrite remover_pagadores_sem_coluna by done.
       by injection H1 as <- _. }
  destruct (mapM py_int ps) as [ints|] eqn:Hint.
  2: { rewrite (remover_pagadores_nao_inteiros _ _ c) in H1 by done.
       rewrite (remover_pagadores_nao_inteiros _ _ c) by done.
       rewrite Ea. by injection H1 as <- _. }
  pose proof (pagadores_apos_filtro _ _ _ _ _ _ Hps Hc Hint H1) as F1.
  rewrite (remover_pagadores_ok _ _ _ _ Hps Hc Hint) in H1. injection H1 as <- _.
  rewrite (remover_pagadores_ok out ps c ints) by done.
  rewrite Ea. f_equal. f_equal.
  destruct out as [cols rs]; simpl in *. f_equal.
  apply fmap_filter_id, Forall_forall. intros r Hr.
  destruct (D _ Hr) as (r1 & Hr1 & E).
  rewrite Forall_forall in F1. destruct (F1 _ Hr1) as (r0 & _ & -> & Hnot).
  assert (r !! c = Some (to_numeric (r0 !!! c))) as Hl.
  { rewrite E by (apply coluna_pagador_cases in Hc as [->| ->]; outra_coluna).
    apply lookup_insert_eq. }
  assert (r !!! c = to_numeric (r0 !!! c)) as Ht by (by rewrite lookup_total_alt, Hl).
  rewrite Ht, to_numeric_idemp. split; [by apply insert_id|done].
Qed.

Lemma filtros_padrao_fix d1 w d2 out :
  filtros_padrao d1 = (w, inr d2) →
  "Tipo de Churn" ∈ columns out → "FORMAJURIDICA" ∈ columns out →
  deriva ["DATACRIACAOOS"; "Prioridade Motivo"] (rows d2) (rows out) →
  filtros_padrao out = (w, inr out).
Proof.
  intros (_ & _ & -> & ->)%filtros_padrao_inr Hc Hf D. simpl in D.
  rewrite filtros_padrao_ok by done. f_equal. f_equal.
  destruct out as [cols rs]; simpl in *. f_equal.
  assert (Forall (λ r : row, r !!! "Tipo de Churn" ≠ Str "Involuntário"
                             ∧ r !!! "FORMAJURIDICA" ≠ Str "C1") rs) as F.
  { apply Forall_forall. intros r Hr. destruct (D _ Hr) as (r2 & Hr2 & E).
    apply list_elem_of_filter in Hr2 as [Hr1 Hr2].
    apply list_elem_of_filter in Hr2 as [Hr2 _].
    rewrite !(lookup_total_eq r2 r) by (apply E; outra_coluna). done. }
  rewrite (filter_Forall_id (λ r : row, r !!! "Tipo de Churn" ≠ Str "Involuntário")).
  - apply filter_Forall_id. eapply Forall_impl; [exact F|]. by intros r [_ ?].
  - eapply Forall_impl; [exact F|]. by intros r [? _].
Qed.

Lemma deriva_apos_data cats d3 w4 d4 w5 out :
  filtrar_inadimplentes d3 = (w4, inr d4) →
  filtrar_categorias cats d4 = (w5, inr out) →
  deriva ["Prioridade Motivo"] (rows d3) (rows out).
Proof.
  intros H4%filtrar_inadimplentes_inr_passo%passo_deriva
         H5%filtrar_categorias_deriva.
  apply (deriva_trans [] _ _ _ _ H4 H5).
Qed.

Lemma deriva_apos_padrao limite cats d2 w3 d3 w4 d4 w5 out :
  filtrar_data limite d2 = (w3, inr d3) →
  filtrar_inadimplentes d3 = (w4, inr d4) →
  filtrar_categorias cats d4 = (w5, inr out) →
  deriva ["DATACRIACAOOS"; "Prioridade Motivo"] (rows d2) (rows out).
Proof.
  intros H3%filtrar_data_inr_passo%passo_deriva H4 H5.
  apply (deriva_trans ["DATACRIACAOOS"] ["Prioridade Motivo"] _ _ _ H3).
  by eapply deriva_apos_data.
Qed.

Lemma deriva_apos_pagadores limite cats d1 w2 d2 w3 d3 w4 d4 w5 out :
  filtros_padrao d1 = (w2, inr d2) →
  filtrar_data limite d2 = (w3, inr d3) →
  filtrar_inadimplentes d3 = (w4, inr d4) →
  filtrar_categorias cats d4 = (w5, inr out) →
  deriva ["DATACRIACAOOS"; "Prioridade Motivo"] (rows d1) (rows out).
Proof.
  intros H2%filtros_padrao_passo%passo_deriva H3 H4 H5.
  apply (deriva_trans [] _ _ _ _ H2). by eapply deriva_apos_padrao.
Qed.

Lemma filtrar_data_fix limite d2 w d3 out :
  filtrar_data limite d2 = (w, inr d3) →
  has_column "DATACRIACAOOS" out = has_column "DATACRIACAOOS" d2 →
  deriva ["Prioridade Motivo"] (rows d3) (rows out) →
  filtrar_data limite out = (w, inr out).
Proof.
  intros H3 Hcol D.
  destruct (decide ("DATACRIACAOOS" ∈ columns d2)) as [Hc|Hc].
  2: { rewrite filtrar_data_sem_coluna in H3 by done. injection H3 as <- _.
       apply filtrar_data_sem_coluna, has_column_false.
       rewrite Hcol. by apply has_column_false. }
  pose proof (datas_apos_filtro _ _ _ _ Hc H3) as F.
  rewrite filtrar_data_ok in H3 by done. injection H3 as <- _.
  rewrite filtrar_data_ok
    by (apply has_column_true; rewrite Hcol; by apply has_column_true).
  f_equal. f_equal. destruct out as [cols rs]; simpl in *. f_equal.
  assert (Forall (λ r : row, ∃ t, r !! "DATACRIACAOOS" = Some (Timestamp t)
                                  ∧ limite ≤ t) rs) as Frs.
  { eapply deriva_Forall; [exact D|exact F|]. simpl.
    intros r3 r (r2 & t & _ & -> & _ & Hlim) E. exists t.
    rewrite E by outra_coluna. by rewrite lookup_insert_eq. }
  rewrite (fmap_filter_id _ (λ r : row, r !!! "DATACRIACAOOS" ≠ NaN)).
  - apply filter_Forall_id. eapply Forall_impl; [exact Frs|]. simpl.
    intros r (t & Ht & Hlim). exists t. by rewrite lookup_total_alt, Ht.
  - eapply Forall_impl; [exact Frs|]. simpl. intros r (t & Ht & _).
    rewrite lookup_total_alt, Ht. simpl. split; [by apply insert_id|done].
Qed.

Lemma filtrar_inadimplentes_fix d3 w d4 out :
  filtrar_inadimplentes d3 = (w, inr d4) →
  has_column "STATUSINADIMPLENTE" out = has_column "STATUSINADIMPLENTE" d3 →
  deriva ["Prioridade Motivo"] (rows d4) (rows out) →
  filtrar_inadimplentes out = (w, inr out).
Proof.
  intros H4 Hcol D.
  destruct (decide ("STATUSINADIMPLENTE" ∈ columns d3)) as [Hc|Hc].
  2: { rewrite filtrar_inadimplentes_sem_coluna in H4 by done.
       injection H4 as <- _.
       apply filtrar_inadimplentes_sem_coluna, has_column_false.
       rewrite Hcol. by apply has_column_false. }
  rewrite filtrar_inadimplentes_ok in H4 by done. injection H4 as <- <-.
  rewrite filtrar_inadimplentes_ok
    by (apply has_column_true; rewrite Hcol; by apply has_column_true).
  f_equal. f_equal. destruct out as [cols rs]; simpl in *. f_equal.
  apply filter_Forall_id, Forall_forall. intros r Hr.
  destruct (D _ Hr) as (r4 & [Hr4 _]%list_elem_of_filter & E).
  by rewrite (lookup_total_eq r4 r) by (apply E; outra_coluna).
Qed.

Lemma filtrar_categorias_colunas cats d w out c :
  filtrar_categorias cats d = (w, inr out) → c ≠ "Prioridade Motivo" →
  has_column c out = has_column c d.
Proof.
  intros [(_ & _ & ->)|(_ & _ & _ & ->)]%filtrar_categorias_inr Hc; [done|].
  unfold has_column. simpl. apply bool_decide_ext.
  rewrite list_elem_of_filter. split; [by intros [_ ?]|done].
Qed.

(** With the category column and without the date column the function
    warns that the date filter is skipped and then raises on the sort. *)
Lemma processar_sem_data_com_categoria now df cats ps :
  "Tipo de Churn" ∈ columns df → "FORMAJURIDICA" ∈ columns df →
  "CATEGORIA4" ∈ columns df → "DATACRIACAOOS" ∉ columns df →
  ∃ ws, processar now df cats ps = (ws, inl (KeyError "DATACRIACAOOS"))
        ∧ AvisoSemData ∈ ws.
Proof.
  intros Hc Hf Hcat Hdate.
  destruct (remover_pagadores_passo df ps) as (w1 & d1 & H1 & [E1 _]).
  assert (∃ d2, filtros_padrao d1 = ([], inr d2) ∧ columns d2 = columns df)
    as (d2 & H2 & E2).
  { eexists. split; [apply filtros_padrao_ok; by rewrite E1|by simpl]. }
  assert (filtrar_data (now - timedelta_days 60) d2 = ([AvisoSemData], inr d2))
    as H3 by (apply filtrar_data_sem_coluna; by rewrite E2).
  destruct (filtrar_inadimplentes_passo d2) as (w4 & d4 & H4 & [E4 _]).
  assert (filtrar_categorias cats d4 = ([], inl (KeyError "DATACRIACAOOS"))) as H5
    by (apply filtrar_categorias_sem_data; by rewrite E4, E2).
  eexists. split; [by eapply processar_passos|].
  rewrite !elem_of_app, list_elem_of_singleton. auto.
Qed.

End Passos.

(** ** The claims *)

Lemma length_filter_split {A} (P Q : A → Prop)
    `{∀ x, Decision (P x)} `{∀ x, Decision (Q x)} (l : list A) :
  (∀ x, P x ↔ ¬ Q x) →
  (length (filter P l) + length (filter Q l) = length l)%nat.
Proof.
  intros HPQ. induction l as [|x l IH]; [done|].
  rewrite !filter_cons.
  destruct (decide (P x)) as [HP|HP], (decide (Q x)) as [HQ|HQ]; simpl;
    try lia; exfalso; apply HPQ in HP || (apply HP, HPQ); done.
Qed.

Section Afirmacoes.

Context (py_int : string → option Z).
Context (parse_numeric parse_datetime : cell → option Z).

Set Default Proof Using "Type".

Local Abbreviation to_numeric := (to_numeric parse_numeric).
Local Abbreviation to_datetime := (to_datetime parse_datetime).
Local Abbreviation remover_pagadores := (remover_pagadores py_int parse_numeric).
Local Abbreviation filtrar_data := (filtrar_data parse_datetime).
Local Abbreviation processar :=
  (processar_dados_churn_com_motivos py_int parse_numeric parse_datetime).
Local Abbreviation criar :=
  (criar_mailing py_int parse_numeric parse_datetime).

(** C4. On a table with the churn-type and legal-form columns, the two
    exclusion steps succeed and keep exactly the rows whose churn type
    is not "Involuntário" and whose legal form is not "C1", unchanged
    and in table order; the rows removed are those with one of the two
    values, so the counts add up; and no row of the final output has
    either value. *)
Theorem filtros_padrao_removem_exatamente df :
  "Tipo de Churn" ∈ columns df → "FORMAJURIDICA" ∈ columns df →
  (∃ d', filtros_padrao df = ([], inr d') ∧ columns d' = columns df ∧
     rows d' = filter (λ r : row, r !!! "Tipo de Churn" ≠ Str "Involuntário"
                                  ∧ r !!! "FORMAJURIDICA" ≠ Str "C1") (rows df) ∧
     (length (rows d')
      + length (filter (λ r : row, r !!! "Tipo de Churn" = Str "Involuntário"
                                   ∨ r !!! "FORMAJURIDICA" = Str "C1") (rows df))
      = length (rows df))%nat)
  ∧ ∀ now cats ps ws out,
      processar now df cats ps = (ws, inr out) →
      Forall (λ r : row, r !!! "Tipo de Churn" ≠ Str "Involuntário"
                         ∧ r !!! "FORMAJURIDICA" ≠ Str "C1") (rows out).
Proof.
  intros Hc Hf. split.
  - eexists. split; [by apply filtros_padrao_ok|]. simpl.
    split; [done|]. rewrite list_filter_filter.
    assert (∀ l : list row,
      filter (λ r : row, r !!! "FORMAJURIDICA" ≠ Str "C1"
                         ∧ r !!! "Tipo de Churn" ≠ Str "Involuntário") l
      = filter (λ r : row, r !!! "Tipo de Churn" ≠ Str "Involuntário"
                           ∧ r !!! "FORMAJURIDICA" ≠ Str "C1") l) as ->
      by (intros l; apply list_filter_iff; tauto).
    split; [done|]. apply length_filter_split.
    intros r. destruct (decide (r !!! "Tipo de Churn" = Str "Involuntário"));
      destruct (decide (r !!! "FORMAJURIDICA" = Str "C1")); tauto.
  - intros now cats ps ws out
      (w1 & d1 & d2 & w3 & d3 & w4 & d4 & w5 & H1 & H2 & H3 & H4 & H5 & _)%processar_inr.
    assert (deriva ["DATACRIACAOOS"; "Prioridade Motivo"] (rows d2) (rows out))
      as Hd by (eapply deriva_apos_padrao; eauto).
    apply filtros_padrao_inr in H2 as (_ & _ & _ & ->). simpl in Hd.
    eapply deriva_Forall; [exact Hd| |].
    + apply Forall_forall. intros r Hr. exact Hr.
    + simpl. intros r r' Hr E.
      apply list_elem_of_filter in Hr as [Hr1 Hr].
      apply list_elem_of_filter in Hr as [Hr2 _].
      rewrite !(lookup_total_eq r r') by (apply E; outra_coluna). done.
Qed.

(** C5. On a table with the creation-date column, every row of the
    output holds a timestamp in that column, not earlier than the
    current moment minus 60 days, and it is what [pd.to_datetime] read
    in the date cell of the input row it comes from: an input row whose
    date does not parse has no row in the output. *)
Theorem datas_validas_e_recentes now df cats ps ws out :
  "DATACRIACAOOS" ∈ columns df →
  processar now df cats ps = (ws, inr out) →
  Forall (λ r : row, ∃ t r0,
            r !! "DATACRIACAOOS" = Some (Timestamp t) ∧
            now - timedelta_days 60 ≤ t ∧
            r0 ∈ rows df ∧
            to_datetime (r0 !!! "DATACRIACAOOS") = Timestamp t ∧
            ∀ c, c ∉ ["PAGADOR"; "Pagador"; "DATACRIACAOOS"; "Prioridade Motivo"] →
                 r !! c = r0 !! c)
         (rows out).
Proof.
  intros Hc
    (w1 & d1 & d2 & w3 & d3 & w4 & d4 & w5 & H1 & H2 & H3 & H4 & H5 & _)%processar_inr.
  apply remover_pagadores_inr_passo in H1 as P1.
  apply filtros_padrao_passo in H2 as P2.
  pose proof (passo_trans _ _ _ _ _ P1 P2) as P12. simpl in P12.
  assert ("DATACRIACAOOS" ∈ columns d2) as Hc2 by (by rewrite (proj1 P12)).
  apply passo_deriva in P12.
  pose proof (datas_apos_filtro parse_datetime _ _ _ _ Hc2 H3) as Hd3.
  pose proof (deriva_apos_data _ _ _ _ _ _ H4 H5) as D.
  eapply deriva_Forall; [exact D|exact Hd3|]. simpl.
  intros r3 r (r2 & t & Hr2 & -> & Ht & Hlim) E.
  destruct (P12 _ Hr2) as (r0 & Hr0 & E0).
  exists t, r0. split.
  { rewrite E by outra_coluna. apply lookup_insert_eq. }
  split; [done|]. split; [done|]. split.
  { rewrite <- Ht. f_equal. symmetry. apply lookup_total_eq, E0. outra_coluna. }
  intros c Hn. apply not_elem_of_cons in Hn as [? Hn].
  apply not_elem_of_cons in Hn as [? Hn].
  apply not_elem_of_cons in Hn as [? Hn].
  rewrite E by done. rewrite lookup_insert_ne by done.
  apply E0. repeat (apply not_elem_of_cons; split; [done|]).
  apply not_elem_of_nil.
Qed.

(** C2. On a table with a payer column: when every payer to remove
    reads as an integer, no row of the output holds one of these
    integers in the payer column; when one of them does not, the payer
    step warns and hands the table on as it received it, and the
    function returns what it returns with no payer to remove. *)
Theorem pagadores_removidos_ou_filtro_inerte now df cats ps c :
  coluna_pagador df = Some c →
  (Forall (λ p, is_Some (py_int p)) ps →
     ∀ ws out, processar now df cats ps = (ws, inr out) →
       Forall (λ r : row, ∀ p n, p ∈ ps → py_int p = Some n → r !!! c ≠ Num n)
              (rows out))
  ∧ (Exists (λ p, py_int p = None) ps →
     remover_pagadores df ps
     = (avisos_coluna_pagador df ++ [AvisoPagadoresNaoInteiros], inr df)
     ∧ Run.resultado (processar now df cats ps)
       = Run.resultado (processar now df cats [])
     ∧ Run.avisos (processar now df cats ps)
       = avisos_coluna_pagador df ++ [AvisoPagadoresNaoInteiros]
         ++ Run.avisos (processar now df cats [])).
Proof.
  intros Hc. split.
  - intros [ints Hint]%mapM_is_Some_2 ws out
      (w1 & d1 & d2 & w3 & d3 & w4 & d4 & w5 & H1 & H2 & H3 & H4 & H5 & _)%processar_inr.
    apply Forall_forall. intros r Hr p n Hp Hn.
    assert (ps ≠ []) as Hps by (intros ->; by apply elem_of_nil in Hp).
    pose proof (pagadores_apos_filtro py_int parse_numeric _ _ _ _ _ _ Hps Hc Hint H1) as F1.
    pose proof (deriva_apos_pagadores parse_datetime _ _ _ _ _ _ _ _ _ _ _ H2 H3 H4 H5) as D.
    destruct (D _ Hr) as (r1 & Hr1 & E).
    rewrite Forall_forall in F1. destruct (F1 _ Hr1) as (r0 & _ & -> & Hnot).
    rewrite (lookup_total_eq (<[c:=to_numeric (r0 !!! c)]> r0) r).
    2: { apply E. apply coluna_pagador_cases in Hc as [->| ->]; outra_coluna. }
    rewrite lookup_total_insert_eq. intros Heq. apply Hnot. rewrite Heq.
    apply list_elem_of_fmap_2. by eapply mapM_Some_elem_of.
  - intros Hex%mapM_None_2.
    assert (ps ≠ []) as Hps by (by intros ->).
    pose proof (remover_pagadores_nao_inteiros _ parse_numeric _ _ _ Hps Hc Hex) as H1.
    split; [done|]. unfold processar_dados_churn_com_motivos.
    rewrite H1, remover_pagadores_vazio. split.
    + apply Run_bind_resultado.
    + rewrite !Run_bind_avisos. simpl. by rewrite <- app_assoc.
Qed.


(** C1. On a table with the category column, every row of the output
    has a category of the allowed list, and its priority rank, the
    entry of the category in the priority dictionary, is a 1-based
    position of that category in the list; the rank is what the
    function writes in the transient priority column; and the output is
    in order: of two neighbouring rows the first has the later or the
    same creation date and, when the dates are the same, the smaller or
    the same rank. *)
Theorem categorias_permitidas_e_ordem now df cats ps ws out :
  "CATEGORIA4" ∈ columns df →
  processar now df cats ps = (ws, inr out) →
  Forall (λ r : row, ∃ c k, r !!! "CATEGORIA4" = Str c ∧ c ∈ cats ∧
                            posto cats r = Some k ∧
                            1 ≤ k ∧ cats !! Z.to_nat (k - 1) = Some c)
         (rows out)
  ∧ (∀ d w d' r, atribuir_prioridade cats d = (w, inr d') → r ∈ rows d' →
       ∃ k, r !! "Prioridade Motivo" = Some (Num k) ∧ posto cats r = Some k)
  ∧ (∀ i r1 r2, rows out !! i = Some r1 → rows out !! S i = Some r2 →
       ∃ t1 t2 k1 k2,
         r1 !!! "DATACRIACAOOS" = Timestamp t1 ∧
         r2 !!! "DATACRIACAOOS" = Timestamp t2 ∧
         posto cats r1 = Some k1 ∧ posto cats r2 = Some k2 ∧
         t2 ≤ t1 ∧ (t1 = t2 → k1 ≤ k2)).
Proof.
  intros Hcat
    (w1 & d1 & d2 & w3 & d3 & w4 & d4 & w5 & H1 & H2 & H3 & H4 & H5 & _)%processar_inr.
  apply remover_pagadores_inr_passo in H1 as [E1 _].
  apply filtros_padrao_passo in H2 as [E2 _].
  apply filtrar_data_inr_passo in H3 as P3. destruct P3 as [E3 _].
  apply filtrar_inadimplentes_inr_passo in H4 as P4. destruct P4 as [E4 _].
  apply filtrar_categorias_inr in H5 as [(Hn & _)|(_ & Hdate & _ & ->)].
  { rewrite E4, E3, E2, E1 in Hn. done. }
  rewrite E4, E3 in Hdate.
  pose proof (datas_apos_inadimplentes _ _ _ _ _ _ _ Hdate H3 H4) as Hd4.
  set (S := stable_sort ordem_mailing (linhas_priorizadas cats (rows d4))).
  assert (∀ s, s ∈ S →
            ∃ t c k, s !!! "DATACRIACAOOS" = Timestamp t ∧
                     s !!! "CATEGORIA4" = Str c ∧ c ∈ cats ∧
                     prioridade_map cats !! c = Some k ∧
                     s !! "Prioridade Motivo" = Some (Num k)) as HS.
  { intros s Hs%elem_of_stable_sort.
    eapply linhas_priorizadas_ordenaveis; [|exact Hs].
    eapply Forall_impl; [exact Hd4|]. simpl.
    intros r (t & Ht & _). exists t. by rewrite lookup_total_alt, Ht. }
  simpl. split; [|split].
  - apply Forall_forall. intros r (s & -> & Hs)%list_elem_of_fmap.
    destruct (HS _ Hs) as (t & c & k & _ & Hc & Hin & Hk & _).
    apply prioridade_map_elem_of in Hk as Hpos. destruct Hpos as (Hk1 & Hpos & _).
    exists c, k. unfold posto.
    rewrite lookup_total_delete_ne by discriminate. by rewrite Hc.
  - intros d w d' r [_ ->]%atribuir_prioridade_inr
      (r0 & c & k & _ & -> & Hc & _ & Hk)%elem_of_linhas_priorizadas.
    exists k. rewrite lookup_insert_eq. unfold posto.
    rewrite lookup_total_insert_ne by discriminate. by rewrite Hc.
  - intros i r1 r2 L1 L2. rewrite list_lookup_fmap in L1, L2.
    destruct (S !! i) as [s1|] eqn:S1; [|done].
    destruct (S !! Datatypes.S i) as [s2|] eqn:S2; [|done].
    simpl in L1, L2. injection L1 as <-. injection L2 as <-.
    pose proof (Sorted_lookup_succ _ _ _ _ _
                  (ordem_mailing_Sorted _) S1 S2) as Hle.
    apply list_elem_of_lookup_2 in S1, S2.
    destruct (HS _ S1) as (t1 & c1 & k1 & Hd1 & Hc1 & _ & Hk1 & Hp1).
    destruct (HS _ S2) as (t2 & c2 & k2 & Hd2 & Hc2 & _ & Hk2 & Hp2).
    exists t1, t2, k1, k2. unfold posto.
    rewrite !lookup_total_delete_ne by discriminate.
    rewrite Hc1, Hc2, Hd1, Hd2. do 4 (split; [done|]).
    apply (ordem_mailing_spec s1 s2); try done.
    + by rewrite lookup_total_alt, Hp1.
    + by rewrite lookup_total_alt, Hp2.
Qed.

(** C6. Idempotence: when the function returns a table, running it
    again on that table, with the same allowed categories, the same
    payers to remove and the same current moment, returns the same
    table, with the same warnings. *)
Theorem processar_idempotente now df cats ps ws out :
  processar now df cats ps = (ws, inr out) →
  processar now out cats ps = (ws, inr out).
Proof.
  intros
    (w1 & d1 & d2 & w3 & d3 & w4 & d4 & w5 & H1 & H2 & H3 & H4 & H5 & ->)%processar_inr.
  pose proof (filtrar_categorias_fix _ _ _ _ H5) as F5.
  pose proof (filtrar_categorias_deriva _ _ _ _ H5) as D4.
  pose proof (deriva_apos_data _ _ _ _ _ _ H4 H5) as D3.
  pose proof (deriva_apos_padrao parse_datetime _ _ _ _ _ _ _ _ _ H3 H4 H5) as D2.
  pose proof (deriva_apos_pagadores parse_datetime _ _ _ _ _ _ _ _ _ _ _
                H2 H3 H4 H5) as D1.
  apply remover_pagadores_inr_passo in H1 as P1. destruct P1 as [E1 _].
  apply filtros_padrao_passo in H2 as P2. destruct P2 as [E2 _].
  apply filtrar_data_inr_passo in H3 as P3. destruct P3 as [E3 _].
  apply filtrar_inadimplentes_inr_passo in H4 as P4. destruct P4 as [E4 _].
  assert (∀ c, c ≠ "Prioridade Motivo" → has_column c out = has_column c d4)
    as Hcol by (intros c; by apply filtrar_categorias_colunas with cats w5).
  assert (∀ c, has_column c d4 = has_column c d3) as C43
    by (intros c; unfold has_column; by rewrite E4).
  assert (∀ c, has_column c d3 = has_column c d2) as C32
    by (intros c; unfold has_column; by rewrite E3).
  assert (∀ c, has_column c d2 = has_column c d1) as C21
    by (intros c; unfold has_column; by rewrite E2).
  assert (∀ c, has_column c d1 = has_column c df) as C10
    by (intros c; unfold has_column; by rewrite E1).
  pose proof (filtros_padrao_inr _ _ _ H2) as (Hchurn & Hforma & _ & _).
  assert (remover_pagadores out ps = (w1, inr out)) as F1.
  { eapply remover_pagadores_fix; [exact H1| | |exact D1].
    - by rewrite Hcol, C43, C32, C21, C10 by discriminate.
    - by rewrite Hcol, C43, C32, C21, C10 by discriminate. }
  assert (filtros_padrao out = ([], inr out)) as F2.
  { eapply filtros_padrao_fix; [exact H2| | |exact D2].
    - apply has_column_true. rewrite Hcol, C43, C32, C21 by discriminate.
      by apply has_column_true.
    - apply has_column_true. rewrite Hcol, C43, C32, C21 by discriminate.
      by apply has_column_true. }
  assert (filtrar_data (now - timedelta_days 60) out = (w3, inr out)) as F3.
  { eapply filtrar_data_fix; [exact H3| |exact D3].
    by rewrite Hcol, C43, C32 by discriminate. }
  assert (filtrar_inadimplentes out = (w4, inr out)) as F4.
  { eapply filtrar_inadimplentes_fix; [exact H4| |exact D4].
    by rewrite Hcol, C43 by discriminate. }
  by rewrite (processar_passos py_int parse_numeric parse_datetime
                _ _ _ _ _ _ _ _ _ _ _ _ _ _ F1 F2 F3 F4 F5).
Qed.

(** C7. A table without the churn-type column, or without the
    legal-form column, makes the function raise [KeyError] for the
    first of the two that is missing: no table is returned, and the
    caller reports the error and offers no file. *)
Theorem sem_coluna_obrigatoria_erro now df cats ps :
  "Tipo de Churn" ∉ columns df ∨ "FORMAJURIDICA" ∉ columns df →
  ∃ c, (c = "Tipo de Churn" ∨ c = "FORMAJURIDICA") ∧ (c ∉ columns df) ∧
       Run.resultado (processar now df cats ps) = inl (KeyError c) ∧
       (cats ≠ [] → criar now df cats ps = ErroAoProcessar (KeyError c)) ∧
       (∀ out, criar now df cats ps ≠ PlanilhaParaBaixar out).
Proof.
  intros H.
  destruct (remover_pagadores_passo py_int parse_numeric df ps)
    as (w1 & d1 & H1 & [Hcols _]).
  assert (∃ c, (c = "Tipo de Churn" ∨ c = "FORMAJURIDICA") ∧ (c ∉ columns df) ∧
               filtros_padrao d1 = ([], inl (KeyError c))) as (c & Hc & Hnc & H2).
  { destruct (decide ("Tipo de Churn" ∈ columns df)) as [Hin|Hin].
    - destruct H as [H|H]; [done|]. exists "FORMAJURIDICA".
      split; [by right|]. split; [done|].
      apply filtros_padrao_sem_forma; by rewrite Hcols.
    - exists "Tipo de Churn". split; [by left|]. split; [done|].
      apply filtros_padrao_sem_churn; by rewrite Hcols. }
  exists c. split; [done|]. split; [done|].
  pose proof (processar_erro_padrao py_int parse_numeric parse_datetime
                now df cats ps _ _ _ _ H1 H2) as Hp.
  unfold criar_mailing. rewrite Hp. simpl.
  split; [done|]. split.
  - intros Hcats. by rewrite bool_decide_false.
  - intros out. by case_bool_decide.
Qed.


(** C9. The priority written for a row is one plus the index of the
    last occurrence of the row's category in the allowed list: a
    category that is listed twice takes the rank of its later place. *)
Theorem prioridade_ultima_ocorrencia cats df w d r :
  atribuir_prioridade cats df = (w, inr d) → r ∈ rows d →
  ∃ c i, r !!! "CATEGORIA4" = Str c ∧ ultima_posicao cats c i ∧
         r !! "Prioridade Motivo" = Some (Num (Z.of_nat i + 1)) ∧
         prioridade_map cats !! c = Some (Z.of_nat i + 1).
Proof.
  intros [_ ->]%atribuir_prioridade_inr
    (r0 & c & k & _ & -> & Hc & _ & Hk)%elem_of_linhas_priorizadas.
  apply prioridade_map_lookup in Hk as Hlast. destruct Hlast as (i & -> & Hi).
  exists c, i. rewrite lookup_total_insert_ne by discriminate.
  by rewrite lookup_insert_eq.
Qed.

End Afirmacoes.

(** C3 (what the code does). A table with the mandatory columns and the
    category column but without the creation-date column: the date step
    is skipped with its warning, and the sort of the category step then
    raises [KeyError] on the missing date column. *)
Theorem sem_data_com_categoria_KeyError :
  Exemplo.processar Exemplo.hoje
    (Exemplo.sem_coluna "DATACRIACAOOS" Exemplo.base) Exemplo.motivos []
  = ([AvisoSemData], inl (KeyError "DATACRIACAOOS")).
Proof. vm_compute. reflexivity. Qed.

(** ** The claims on the example tables *)

Lemma categorias_permitidas_e_ordem_exemplo :
  "CATEGORIA4" ∈ columns Exemplo.base ∧
  Exemplo.processar Exemplo.hoje Exemplo.base Exemplo.motivos []
  = ([], inr Exemplo.mailing) ∧
  (Forall (λ r : row, ∃ c k, r !!! "CATEGORIA4" = Str c ∧ c ∈ Exemplo.motivos ∧
                             posto Exemplo.motivos r = Some k ∧
                             1 ≤ k ∧ Exemplo.motivos !! Z.to_nat (k - 1) = Some c)
          (rows Exemplo.mailing)
   ∧ (∀ d w d' r, atribuir_prioridade Exemplo.motivos d = (w, inr d') → r ∈ rows d' →
        ∃ k, r !! "Prioridade Motivo" = Some (Num k)
             ∧ posto Exemplo.motivos r = Some k)
   ∧ (∀ i r1 r2, rows Exemplo.mailing !! i = Some r1 →
        rows Exemplo.mailing !! S i = Some r2 →
        ∃ t1 t2 k1 k2,
          r1 !!! "DATACRIACAOOS" = Timestamp t1 ∧
          r2 !!! "DATACRIACAOOS" = Timestamp t2 ∧
          posto Exemplo.motivos r1 = Some k1 ∧ posto Exemplo.motivos r2 = Some k2 ∧
          t2 ≤ t1 ∧ (t1 = t2 → k1 ≤ k2))).
Proof.
  assert ("CATEGORIA4" ∈ columns Exemplo.base) as H1 by decidir.
  assert (Exemplo.processar Exemplo.hoje Exemplo.base Exemplo.motivos []
          = ([], inr Exemplo.mailing)) as H2 by (vm_compute; reflexivity).
  split; [exact H1|]. split; [exact H2|].
  exact (categorias_permitidas_e_ordem _ _ _ _ _ _ _ _ _ H1 H2).
Defined.

Lemma pagadores_removidos_ou_filtro_inerte_exemplo :
  coluna_pagador Exemplo.base = Some "PAGADOR" ∧
  Forall (λ p, is_Some (Exemplo.py_int p)) ["102"; "109"] ∧
  Exists (λ p, Exemplo.py_int p = None) ["102"; "abc"] ∧
  Forall (λ r : row, ∀ p n, p ∈ ["102"; "109"] → Exemplo.py_int p = Some n →
                            r !!! "PAGADOR" ≠ Num n)
         (rows Exemplo.mailing_sem_102) ∧
  Run.resultado (Exemplo.processar Exemplo.hoje Exemplo.base Exemplo.motivos
                   ["102"; "abc"])
  = Run.resultado (Exemplo.processar Exemplo.hoje Exemplo.base Exemplo.motivos []).
Proof.
  assert (coluna_pagador Exemplo.base = Some "PAGADOR") as Hc by reflexivity.
  assert (Forall (λ p, is_Some (Exemplo.py_int p)) ["102"; "109"]) as Hall by decidir.
  assert (Exists (λ p, Exemplo.py_int p = None) ["102"; "abc"]) as Hex by decidir.
  split; [exact Hc|]. split; [exact Hall|]. split; [exact Hex|]. split.
  - apply (proj1 (pagadores_removidos_ou_filtro_inerte
                    Exemplo.py_int Exemplo.parse_numeric Exemplo.parse_datetime
                    Exemplo.hoje Exemplo.base Exemplo.motivos ["102"; "109"]
                    "PAGADOR" Hc) Hall []).
    vm_compute. reflexivity.
  - apply (proj2 (pagadores_removidos_ou_filtro_inerte
                    Exemplo.py_int Exemplo.parse_numeric Exemplo.parse_datetime
                    Exemplo.hoje Exemplo.base Exemplo.motivos ["102"; "abc"]
                    "PAGADOR" Hc) Hex).
Defined.

Lemma filtros_padrao_removem_exatamente_exemplo :
  "Tipo de Churn" ∈ columns Exemplo.cem_linhas ∧
  "FORMAJURIDICA" ∈ columns Exemplo.cem_linhas ∧
  length (rows Exemplo.cem_linhas) = 100%nat ∧
  length (filter (λ r : row, r !!! "Tipo de Churn" = Str "Involuntário"
                             ∨ r !!! "FORMAJURIDICA" = Str "C1")
            (rows Exemplo.cem_linhas)) = 10%nat ∧
  ∃ d', filtros_padrao Exemplo.cem_linhas = ([], inr d') ∧
        length (rows d') = 90%nat ∧
        rows d' = filter (λ r : row, r !!! "Tipo de Churn" ≠ Str "Involuntário"
                                     ∧ r !!! "FORMAJURIDICA" ≠ Str "C1")
                    (rows Exemplo.cem_linhas).
Proof.
  assert ("Tipo de Churn" ∈ columns Exemplo.cem_linhas) as H1 by decidir.
  assert ("FORMAJURIDICA" ∈ columns Exemplo.cem_linhas) as H2 by decidir.
  assert (length (filter (λ r : row, r !!! "Tipo de Churn" = Str "Involuntário"
                                     ∨ r !!! "FORMAJURIDICA" = Str "C1")
                    (rows Exemplo.cem_linhas)) = 10%nat) as H10
    by (vm_compute; reflexivity).
  split; [exact H1|]. split; [exact H2|]. split; [reflexivity|]. split; [exact H10|].
  destruct (filtros_padrao_removem_exatamente
              Exemplo.py_int Exemplo.parse_numeric Exemplo.parse_datetime
              Exemplo.cem_linhas H1 H2) as [(d' & Hd' & _ & Hrows & Hlen) _].
  exists d'. split; [exact Hd'|]. split; [|exact Hrows].
  rewrite H10 in Hlen. change (length (rows Exemplo.cem_linhas)) with 100%nat in Hlen.
  lia.
Defined.

Lemma datas_validas_e_recentes_exemplo :
  "DATACRIACAOOS" ∈ columns Exemplo.base ∧
  Exemplo.processar Exemplo.hoje Exemplo.base Exemplo.motivos []
  = ([], inr Exemplo.mailing) ∧
  Forall (λ r : row, ∃ t r0,
            r !! "DATACRIACAOOS" = Some (Timestamp t) ∧
            Exemplo.hoje - timedelta_days 60 ≤ t ∧
            r0 ∈ rows Exemplo.base ∧
            to_datetime Exemplo.parse_datetime (r0 !!! "DATACRIACAOOS") = Timestamp t ∧
            ∀ c, c ∉ ["PAGADOR"; "Pagador"; "DATACRIACAOOS"; "Prioridade Motivo"] →
                 r !! c = r0 !! c)
         (rows Exemplo.mailing).
Proof.
  assert ("DATACRIACAOOS" ∈ columns Exemplo.base) as H1 by decidir.
  assert (Exemplo.processar Exemplo.hoje Exemplo.base Exemplo.motivos []
          = ([], inr Exemplo.mailing)) as H2 by (vm_compute; reflexivity).
  split; [exact H1|]. split; [exact H2|].
  exact (datas_validas_e_recentes _ _ _ _ _ _ _ _ _ H1 H2).
Defined.

Lemma processar_idempotente_exemplo :
  Exemplo.processar Exemplo.hoje Exemplo.base Exemplo.motivos ["102"; "109"]
  = ([], inr Exemplo.mailing_sem_102) ∧
  Exemplo.processar Exemplo.hoje Exemplo.mailing_sem_102 Exemplo.motivos ["102"; "109"]
  = ([], inr Exemplo.mailing_sem_102).
Proof.
  assert (Exemplo.processar Exemplo.hoje Exemplo.base Exemplo.motivos ["102"; "109"]
          = ([], inr Exemplo.mailing_sem_102)) as H by (vm_compute; reflexivity).
  split; [exact H|].
  exact (processar_idempotente _ _ _ _ _ _ _ _ _ H).
Defined.

Lemma sem_coluna_obrigatoria_erro_exemplo :
  ("Tipo de Churn" ∉ columns (Exemplo.sem_coluna "FORMAJURIDICA" Exemplo.base)
   ∨ "FORMAJURIDICA" ∉ columns (Exemplo.sem_coluna "FORMAJURIDICA" Exemplo.base)) ∧
  ∃ c, (c = "Tipo de Churn" ∨ c = "FORMAJURIDICA") ∧
       (c ∉ columns (Exemplo.sem_coluna "FORMAJURIDICA" Exemplo.base)) ∧
       Run.resultado
         (Exemplo.processar Exemplo.hoje
            (Exemplo.sem_coluna "FORMAJURIDICA" Exemplo.base) Exemplo.motivos ["102"])
       = inl (KeyError c) ∧
       (Exemplo.motivos ≠ [] →
        criar_mailing Exemplo.py_int Exemplo.parse_numeric Exemplo.parse_datetime
          Exemplo.hoje (Exemplo.sem_coluna "FORMAJURIDICA" Exemplo.base)
          Exemplo.motivos ["102"]
        = ErroAoProcessar (KeyError c)) ∧
       (∀ out,
          criar_mailing Exemplo.py_int Exemplo.parse_numeric Exemplo.parse_datetime
            Exemplo.hoje (Exemplo.sem_coluna "FORMAJURIDICA" Exemplo.base)
            Exemplo.motivos ["102"]
          ≠ PlanilhaParaBaixar out).
Proof.
  assert ("Tipo de Churn" ∉ columns (Exemplo.sem_coluna "FORMAJURIDICA" Exemplo.base)
          ∨ "FORMAJURIDICA" ∉ columns (Exemplo.sem_coluna "FORMAJURIDICA" Exemplo.base))
    as H by (right; decidir).
  split; [exact H|].
  exact (sem_coluna_obrigatoria_erro _ _ _ _ _ _ _ H).
Defined.


Lemma prioridade_ultima_ocorrencia_exemplo :
  atribuir_prioridade Exemplo.motivos_repetidos Exemplo.mailing
  = ([], inr Exemplo.mailing_priorizado) ∧
  <["Prioridade Motivo" := Num 3]> Exemplo.linha_sn ∈ rows Exemplo.mailing_priorizado ∧
  ∃ c i,
    (<["Prioridade Motivo" := Num 3]> Exemplo.linha_sn : row) !!! "CATEGORIA4" = Str c ∧
    ultima_posicao Exemplo.motivos_repetidos c i ∧
    (<["Prioridade Motivo" := Num 3]> Exemplo.linha_sn : row) !! "Prioridade Motivo"
    = Some (Num (Z.of_nat i + 1)) ∧
    prioridade_map Exemplo.motivos_repetidos !! c = Some (Z.of_nat i + 1).
Proof.
  assert (atribuir_prioridade Exemplo.motivos_repetidos Exemplo.mailing
          = ([], inr Exemplo.mailing_priorizado)) as H1 by (vm_compute; reflexivity).
  assert (<["Prioridade Motivo" := Num 3]> Exemplo.linha_sn
          ∈ rows Exemplo.mailing_priorizado) as H2 by apply list_elem_of_here.
  split; [exact H1|]. split; [exact H2|].
  exact (prioridade_ultima_ocorrencia _ _ _ _ _ H1 H2).
Defined.


(** * Further properties of the processing function *)

Lemma filter_fmap {A B} (f : A → B) (P : B → Prop) `{∀ y, Decision (P y)}
    (l : list A) :
  filter P (f <$> l) = f <$> filter (λ x, P (f x)) l.
Proof.
  induction l as [|x l IH]; [done|]. simpl. rewrite !filter_cons.
  destruct (decide (P (f x))); simpl; [f_equal|]; exact IH.
Qed.

(** A step that tests and then rewrites the rows, after rows that were
    already tested and rewritten. *)
Lemma estagio {A} (F g : A → A) (S T T' : A → Prop)
    `{∀ x, Decision (S x)} `{∀ x, Decision (T x)} `{∀ x, Decision (T' x)}
    (l rs rs' : list A) :
  rs = F <$> filter S l → rs' = g <$> filter T rs → (∀ x, T (F x) ↔ T' x) →
  rs' = (g ∘ F) <$> filter (λ x, S x ∧ T' x) l.
Proof.
  intros -> -> HT. rewrite filter_fmap, list_filter_filter, <- list_fmap_compose.
  f_equal. apply list_filter_iff. intros x. rewrite HT. tauto.
Qed.

Lemma estagio_filtro {A} (F : A → A) (S T T' : A → Prop)
    `{∀ x, Decision (S x)} `{∀ x, Decision (T x)} `{∀ x, Decision (T' x)}
    (l rs rs' : list A) :
  rs = F <$> filter S l → rs' = filter T rs → (∀ x, T (F x) ↔ T' x) →
  rs' = F <$> filter (λ x, S x ∧ T' x) l.
Proof.
  intros Hrs -> HT.
  rewrite (estagio F id S T T' l rs (filter T rs) Hrs); [done| |done].
  by rewrite list_fmap_id.
Qed.

Section Cobertura.

Context (py_int : string → option Z).
Context (parse_numeric parse_datetime : cell → option Z).

Set Default Proof Using "Type".

Local Abbreviation to_numeric := (to_numeric parse_numeric).
Local Abbreviation to_datetime := (to_datetime parse_datetime).
Local Abbreviation remover_pagadores := (remover_pagadores py_int parse_numeric).
Local Abbreviation filtrar_data := (filtrar_data parse_datetime).
Local Abbreviation processar :=
  (processar_dados_churn_com_motivos py_int parse_numeric parse_datetime).
Local Abbreviation filtro_pagadores := (filtro_pagadores py_int).
Local Abbreviation converte_pagador := (converte_pagador py_int parse_numeric).
Local Abbreviation passa_pagadores := (passa_pagadores py_int parse_numeric).
Local Abbreviation converte_data := (converte_data parse_datetime).
Local Abbreviation linha_convertida :=
  (linha_convertida py_int parse_numeric parse_datetime).
Local Abbreviation sobrevive := (sobrevive py_int parse_numeric parse_datetime).

(** ** The steps, row by row *)

Lemma filtro_pagadores_Some df ps c (ints : list Z) :
  filtro_pagadores df ps = Some (c, ints)
  ↔ ps ≠ [] ∧ coluna_pagador df = Some c ∧ mapM py_int ps = Some ints.
Proof.
  unfold filtro_pagadores. case_bool_decide as Hps.
  { split; [done|]. by intros [? _]. }
  destruct (coluna_pagador df) as [c'|], (mapM py_int ps) as [ints'|];
    split; try done; try (by intros (_ & ? & ?)).
  - by intros [= -> ->].
  - by intros (_ & [= ->] & [= ->]).
Qed.

Lemma filtro_pagadores_None df ps :
  filtro_pagadores df ps = None
  ↔ ps = [] ∨ coluna_pagador df = None ∨ mapM py_int ps = None.
Proof.
  unfold filtro_pagadores. case_bool_decide as Hps; [by split; auto|].
  destruct (coluna_pagador df) as [c'|], (mapM py_int ps) as [ints'|];
    split; auto; try done.
  by intros [?|[?|?]].
Qed.

Lemma filtro_pagadores_coluna df ps c (ints : list Z) :
  filtro_pagadores df ps = Some (c, ints) → c = "PAGADOR" ∨ c = "Pagador".
Proof.
  intros (_ & Hc & _)%filtro_pagadores_Some. by eapply coluna_pagador_cases.
Qed.

Lemma remover_pagadores_inerte df ps :
  filtro_pagadores df ps = None →
  Run.resultado (remover_pagadores df ps) = inr df.
Proof.
  intros [->|[Hc|Hint]]%filtro_pagadores_None.
  - by rewrite remover_pagadores_vazio.
  - by rewrite remover_pagadores_sem_coluna.
  - destruct (decide (ps = [])) as [->|Hps]; [by rewrite remover_pagadores_vazio|].
    destruct (coluna_pagador df) as [c|] eqn:Hc.
    + by rewrite (remover_pagadores_nao_inteiros _ _ _ _ _ Hps Hc Hint).
    + by rewrite remover_pagadores_sem_coluna.
Qed.

Lemma remover_pagadores_linhas df ps w d1 :
  remover_pagadores df ps = (w, inr d1) →
  rows d1 = converte_pagador df ps <$> filter (passa_pagadores df ps) (rows df).
Proof.
  intros H1. destruct (filtro_pagadores df ps) as [[c ints]|] eqn:Hf.
  - apply filtro_pagadores_Some in Hf as Hf'. destruct Hf' as (Hps & Hc & Hint).
    rewrite (remover_pagadores_ok _ _ _ _ _ _ Hps Hc Hint) in H1.
    injection H1 as _ <-. simpl. rewrite filter_fmap.
    rewrite (list_filter_iff _ (passa_pagadores df ps)).
    + apply list_fmap_ext. intros _ r _. unfold converte_pagador. by rewrite Hf.
    + intros r. unfold passa_pagadores. rewrite Hf.
      by rewrite lookup_total_insert_eq.
  - pose proof (remover_pagadores_inerte _ _ Hf) as Hr. rewrite H1 in Hr.
    injection Hr as ->.
    rewrite filter_Forall_id, fmap_Forall_id; [done| |].
    + apply Forall_forall. intros r _. unfold converte_pagador. by rewrite Hf.
    + apply Forall_forall. intros r _. unfold passa_pagadores. by rewrite Hf.
Qed.

Lemma converte_pagador_lookup_ne df ps (r : row) c :
  c ≠ "PAGADOR" → c ≠ "Pagador" → converte_pagador df ps r !! c = r !! c.
Proof.
  intros H1 H2. unfold converte_pagador.
  destruct (filtro_pagadores df ps) as [[c' ints]|] eqn:Hf; [|done].
  apply lookup_insert_ne. by destruct (filtro_pagadores_coluna _ _ _ _ Hf) as [->| ->].
Qed.

Lemma converte_data_lookup_ne df (r : row) c :
  c ≠ "DATACRIACAOOS" → converte_data df r !! c = r !! c.
Proof.
  intros H. unfold converte_data. destruct (has_column _ df); [|done].
  by apply lookup_insert_ne.
Qed.

Lemma filtros_padrao_linhas d w d' :
  filtros_padrao d = (w, inr d') →
  rows d' = filter (λ r : row, r !!! "Tipo de Churn" ≠ Str "Involuntário"
                               ∧ r !!! "FORMAJURIDICA" ≠ Str "C1") (rows d).
Proof.
  intros (_ & _ & _ & ->)%filtros_padrao_inr. simpl.
  rewrite list_filter_filter. apply list_filter_iff. tauto.
Qed.

Lemma filtrar_data_linhas limite d w d' :
  filtrar_data limite d = (w, inr d') →
  rows d' = converte_data d
            <$> filter (λ r : row, "DATACRIACAOOS" ∈ columns d →
                          recente limite (to_datetime (r !!! "DATACRIACAOOS")))
                  (rows d).
Proof.
  destruct (decide ("DATACRIACAOOS" ∈ columns d)) as [Hc|Hc].
  - rewrite filtrar_data_ok by done. intros [= _ <-]. simpl.
    rewrite list_filter_filter, filter_fmap.
    rewrite (list_filter_iff _
               (λ r : row, "DATACRIACAOOS" ∈ columns d →
                  recente limite (to_datetime (r !!! "DATACRIACAOOS")))).
    + apply list_fmap_ext. intros _ r _. unfold converte_data.
      by rewrite (proj2 (has_column_true _ _) Hc).
    + intros r. rewrite lookup_total_insert_eq. split; [tauto|].
      intros Hr. specialize (Hr Hc). split; [done|].
      destruct Hr as (t & -> & _). done.
  - rewrite filtrar_data_sem_coluna by done. intros [= _ <-].
    rewrite filter_Forall_id, fmap_Forall_id; [done| |].
    + apply Forall_forall. intros r _. unfold converte_data.
      by rewrite (proj2 (has_column_false _ _) Hc).
    + apply Forall_forall. by intros r _ ?.
Qed.

Lemma filtrar_inadimplentes_linhas d w d' :
  filtrar_inadimplentes d = (w, inr d') →
  rows d' = filter (λ r : row, "STATUSINADIMPLENTE" ∈ columns d →
                      r !!! "STATUSINADIMPLENTE" ≠ Str "I") (rows d).
Proof.
  destruct (decide ("STATUSINADIMPLENTE" ∈ columns d)) as [Hc|Hc].
  - rewrite filtrar_inadimplentes_ok by done. intros [= _ <-]. simpl.
    apply list_filter_iff. tauto.
  - rewrite filtrar_inadimplentes_sem_coluna by done. intros [= _ <-].
    rewrite filter_Forall_id; [done|]. apply Forall_forall. by intros r _ ?.
Qed.

Lemma filtrar_categorias_linhas cats d w out :
  filtrar_categorias cats d = (w, inr out) →
  rows out ≡ₚ (λ r : row, if has_column "CATEGORIA4" d
                          then delete "Prioridade Motivo" r else r)
              <$> filter (λ r : row, "CATEGORIA4" ∈ columns d →
                            r !!! "CATEGORIA4" ∈ Str <$> cats) (rows d)
  ∧ ("CATEGORIA4" ∉ columns d → out = d).
Proof.
  intros [(Hn & _ & ->)|(Hc & _ & _ & ->)]%filtrar_categorias_inr.
  - split; [|done]. rewrite (proj2 (has_column_false _ _) Hn).
    rewrite list_fmap_id, filter_Forall_id; [done|].
    apply Forall_forall. by intros r _ ?.
  - split; [|done]. simpl. rewrite (proj2 (has_column_true _ _) Hc).
    rewrite stable_sort_perm. unfold linhas_priorizadas.
    rewrite <- list_fmap_compose.
    rewrite (list_filter_iff _
               (λ r : row, "CATEGORIA4" ∈ columns d →
                  r !!! "CATEGORIA4" ∈ Str <$> cats)) by tauto.
    erewrite list_fmap_ext; [done|]. intros _ r _. simpl.
    apply delete_insert_eq.
Qed.

(** ** The function as one filter and one rewriting of the rows *)

Lemma has_column_ext c d d' : columns d' = columns d → has_column c d' = has_column c d.
Proof. intros E. unfold has_column. by rewrite E. Qed.

(** The rows that reach the category step, tested and rewritten there
    without the sort, are the surviving rows of the input. *)
Lemma antes_das_categorias now df cats ps w1 d1 w2 d2 w3 d3 w4 d4 :
  remover_pagadores df ps = (w1, inr d1) →
  filtros_padrao d1 = (w2, inr d2) →
  filtrar_data (now - timedelta_days 60) d2 = (w3, inr d3) →
  filtrar_inadimplentes d3 = (w4, inr d4) →
  columns d4 = columns df
  ∧ (λ r : row, if has_column "CATEGORIA4" d4
                then delete "Prioridade Motivo" r else r)
    <$> filter (λ r : row, "CATEGORIA4" ∈ columns d4 →
                  r !!! "CATEGORIA4" ∈ Str <$> cats) (rows d4)
    = linha_convertida df ps <$> filter (sobrevive now df cats ps) (rows df).
Proof.
  intros H1 H2 H3 H4.
  apply remover_pagadores_inr_passo in H1 as P1. destruct P1 as [E1 _].
  apply filtros_padrao_passo in H2 as P2. destruct P2 as [E2 _].
  apply filtrar_data_inr_passo in H3 as P3. destruct P3 as [E3 _].
  apply filtrar_inadimplentes_inr_passo in H4 as P4. destruct P4 as [E4 _].
  rewrite E1 in E2. rewrite E2 in E3. rewrite E3 in E4.
  split; [exact E4|].
  apply remover_pagadores_linhas in H1 as R1.
  apply filtros_padrao_linhas in H2 as R2.
  apply filtrar_data_linhas in H3 as R3.
  apply filtrar_inadimplentes_linhas in H4 as R4.
  assert (∀ (r : row) c, c ≠ "PAGADOR" → c ≠ "Pagador" →
            converte_pagador df ps r !!! c = r !!! c) as Hcp
    by (intros r c ? ?; by apply lookup_total_eq, converte_pagador_lookup_ne).
  assert (∀ (r : row) c, c ≠ "PAGADOR" → c ≠ "Pagador" → c ≠ "DATACRIACAOOS" →
            converte_data d2 (converte_pagador df ps r) !!! c = r !!! c) as Hlook.
  { intros r c ? ? ?.
    rewrite (lookup_total_eq (converte_pagador df ps r) (converte_data d2 _))
      by (by apply converte_data_lookup_ne).
    by apply Hcp. }
  assert (∀ r : row, converte_data d2 (converte_pagador df ps r)
                     = converte_data df (converte_pagador df ps r)) as Hcd.
  { intros r. unfold converte_data. by rewrite (has_column_ext _ _ _ E2). }
  rewrite R4, R3, R2, R1.
  repeat (rewrite filter_fmap || rewrite list_filter_filter
          || rewrite <- list_fmap_compose).
  rewrite (list_filter_iff _ (sobrevive now df cats ps)).
  - apply list_fmap_ext. intros _ r _. simpl.
    unfold linha_convertida. by rewrite (has_column_ext _ _ _ E4), Hcd.
  - intros r. unfold sobrevive. simpl. rewrite E2, E3, E4.
    rewrite !Hlook, !Hcp by discriminate. tauto.
Qed.

Lemma processar_linhas now df cats ps ws out :
  processar now df cats ps = (ws, inr out) →
  rows out ≡ₚ linha_convertida df ps <$> filter (sobrevive now df cats ps) (rows df)
  ∧ ("CATEGORIA4" ∉ columns df →
     rows out = linha_convertida df ps <$> filter (sobrevive now df cats ps) (rows df)).
Proof.
  intros
    (w1 & d1 & d2 & w3 & d3 & w4 & d4 & w5 & H1 & H2 & H3 & H4 & H5 & _)%processar_inr.
  destruct (antes_das_categorias now df cats ps _ _ _ _ _ _ _ _ H1 H2 H3 H4)
    as [E4 <-].
  apply filtrar_categorias_linhas in H5 as [R5 R5e].
  split; [exact R5|].
  intros Hn. rewrite R5e by (by rewrite E4).
  rewrite (proj2 (has_column_false "CATEGORIA4" d4)) by (by rewrite E4).
  rewrite list_fmap_id. symmetry. apply filter_Forall_id, Forall_forall.
  intros r _ Hin. by rewrite E4 in Hin.
Qed.

Lemma linha_convertida_lookup_ne df ps (r : row) c :
  c ∉ ["PAGADOR"; "Pagador"; "DATACRIACAOOS"; "Prioridade Motivo"] →
  linha_convertida df ps r !! c = r !! c.
Proof.
  intros Hc. apply not_elem_of_cons in Hc as [? Hc].
  apply not_elem_of_cons in Hc as [? Hc].
  apply not_elem_of_cons in Hc as [? Hc].
  apply not_elem_of_cons in Hc as [? _].
  unfold linha_convertida.
  destruct (has_column "CATEGORIA4" df);
    rewrite ?lookup_delete_ne by done;
    rewrite converte_data_lookup_ne by done;
    by apply converte_pagador_lookup_ne.
Qed.

Lemma remover_pagadores_avisos df ps :
  Run.avisos (remover_pagadores df ps) = avisos_pagadores py_int df ps.
Proof.
  unfold avisos_pagadores. case_bool_decide as Hps.
  { subst. by rewrite remover_pagadores_vazio. }
  destruct (coluna_pagador df) as [c|] eqn:Hc.
  2: { by rewrite remover_pagadores_sem_coluna. }
  destruct (mapM py_int ps) as [ints|] eqn:Hint.
  - rewrite (remover_pagadores_ok _ _ _ _ _ _ Hps Hc Hint). simpl.
    by rewrite app_nil_r.
  - by rewrite (remover_pagadores_nao_inteiros _ _ _ _ _ Hps Hc Hint).
Qed.

Lemma ordem_mailing_iguais (a b : row) :
  a !!! "DATACRIACAOOS" = b !!! "DATACRIACAOOS" →
  a !!! "Prioridade Motivo" = b !!! "Prioridade Motivo" →
  ordem_mailing a b = true.
Proof.
  intros Hd Hp. unfold ordem_mailing, row_le. simpl. rewrite Hd, Hp.
  rewrite !bool_decide_true by done. simpl. by rewrite !orb_true_r.
Qed.

(** ** What the function returns, as a whole *)


(** X2. On a table with the delinquency column, no row of the output
    has the status "I". *)
Theorem inadimplentes_excluidos now df cats ps ws out :
  "STATUSINADIMPLENTE" ∈ columns df →
  processar now df cats ps = (ws, inr out) →
  Forall (λ r : row, r !!! "STATUSINADIMPLENTE" ≠ Str "I") (rows out).
Proof.
  intros Hc [Hp _]%processar_linhas. rewrite Hp.
  apply Forall_fmap, Forall_forall. intros r [Hs _]%list_elem_of_filter. simpl.
  rewrite (lookup_total_eq r) by (apply linha_convertida_lookup_ne; outra_coluna).
  by apply Hs.
Qed.

(** X3. The payer step works on the column 'PAGADOR' when the table has
    it, also when it has 'Pagador' too: it leaves every other column as
    it is and does not warn about the spelling.  With 'Pagador' only, it
    warns about the spelling first, also when the payers then fail to
    read as integers, and works on that column. *)
Theorem coluna_pagador_preferida df ps w d1 :
  ps ≠ [] → remover_pagadores df ps = (w, inr d1) →
  ("PAGADOR" ∈ columns df →
     (AvisoPagadorMinusculo ∉ w) ∧ passo ["PAGADOR"] df d1)
  ∧ (("PAGADOR" ∉ columns df) → "Pagador" ∈ columns df →
     ∃ w', w = AvisoPagadorMinusculo :: w' ∧ passo ["Pagador"] df d1).
Proof.
  intros Hps H1.
  assert (∀ c, coluna_pagador df = Some c →
            w = avisos_coluna_pagador df
                ++ match mapM py_int ps with
                   | Some _ => []
                   | None => [AvisoPagadoresNaoInteiros]
                   end
            ∧ passo [c] df d1) as Hcase.
  { intros c Hc. destruct (mapM py_int ps) as [ints|] eqn:Hint.
    - rewrite (remover_pagadores_ok _ _ _ _ _ _ Hps Hc Hint) in H1.
      injection H1 as <- <-. rewrite app_nil_r. split; [done|].
      apply passo_filter_setitem.
    - rewrite (remover_pagadores_nao_inteiros _ _ _ _ _ Hps Hc Hint) in H1.
      injection H1 as <- <-. split; [done|]. apply passo_refl. }
  split.
  - intros Hin%has_column_true.
    destruct (Hcase "PAGADOR") as [-> Hp];
      [unfold coluna_pagador; by rewrite Hin|].
    split; [|done]. unfold avisos_coluna_pagador. rewrite Hin. simpl.
    destruct (mapM py_int ps); [apply not_elem_of_nil|].
    rewrite list_elem_of_singleton. discriminate.
  - intros Hn%has_column_false Hin%has_column_true.
    destruct (Hcase "Pagador") as [-> Hp];
      [unfold coluna_pagador; by rewrite Hn, Hin|].
    unfold avisos_coluna_pagador. rewrite Hn, Hin. simpl. eauto.
Qed.

(** X4. On a table with neither 'PAGADOR' nor 'Pagador' the payers to
    remove have no effect at all: the function returns the same table
    and the same warnings, none about the payers, as with no payer to
    remove. *)
Theorem pagadores_ignorados_sem_coluna now df cats ps :
  "PAGADOR" ∉ columns df → "Pagador" ∉ columns df →
  processar now df cats ps = processar now df cats [].
Proof.
  intros H1%has_column_false H2%has_column_false.
  unfold processar_dados_churn_com_motivos.
  rewrite remover_pagadores_vazio, remover_pagadores_sem_coluna; [done|].
  unfold coluna_pagador. by rewrite H1, H2.
Qed.


Lemma processar_devolve now df cats ps :
  "Tipo de Churn" ∈ columns df → "FORMAJURIDICA" ∈ columns df →
  ("CATEGORIA4" ∈ columns df → "DATACRIACAOOS" ∈ columns df) →
  ∃ ws out, processar now df cats ps = (ws, inr out).
Proof.
  intros Hc Hf Hcd.
  destruct (remover_pagadores_passo py_int parse_numeric df ps)
    as (w1 & d1 & H1 & [E1 _]).
  destruct (filtros_padrao d1) as [w2 [e|d2]] eqn:H2.
  { rewrite filtros_padrao_ok in H2 by (by rewrite E1). done. }
  apply filtros_padrao_passo in H2 as P2. destruct P2 as [E2 _].
  destruct (filtrar_data_passo parse_datetime (now - timedelta_days 60) d2)
    as (w3 & d3 & H3 & [E3 _]).
  destruct (filtrar_inadimplentes_passo d3) as (w4 & d4 & H4 & [E4 _]).
  destruct (decide ("CATEGORIA4" ∈ columns df)) as [Hcat|Hcat].
  - eexists _, _. eapply processar_passos; eauto.
    apply filtrar_categorias_ok; rewrite E4, E3, E2, E1; auto.
  - eexists _, _. eapply processar_passos; eauto.
    apply filtrar_categorias_sem_coluna. by rewrite E4, E3, E2, E1.
Qed.

(** The result by the columns: the first missing column is the error. *)
Lemma processar_resultado now df cats ps :
  match coluna_em_falta df with
  | Some c => Run.resultado (processar now df cats ps) = inl (KeyError c)
  | None => ∃ out, Run.resultado (processar now df cats ps) = inr out
  end.
Proof.
  unfold coluna_em_falta.
  destruct (remover_pagadores_passo py_int parse_numeric df ps)
    as (w1 & d1 & H1 & [E1 _]).
  destruct (has_column "Tipo de Churn" df) eqn:Hc; simpl.
  2: { apply has_column_false in Hc.
       rewrite (processar_erro_padrao _ _ _ now df cats ps _ _ _ _ H1
                  (filtros_padrao_sem_churn d1 ltac:(by rewrite E1))). done. }
  apply has_column_true in Hc.
  destruct (has_column "FORMAJURIDICA" df) eqn:Hf; simpl.
  2: { apply has_column_false in Hf.
       rewrite (processar_erro_padrao _ _ _ now df cats ps _ _ _ _ H1
                  (filtros_padrao_sem_forma d1 ltac:(by rewrite E1)
                     ltac:(by rewrite E1))). done. }
  apply has_column_true in Hf.
  destruct (has_column "CATEGORIA4" df) eqn:Hcat; simpl.
  - apply has_column_true in Hcat.
    destruct (has_column "DATACRIACAOOS" df) eqn:Hd; simpl.
    + apply has_column_true in Hd.
      destruct (processar_devolve now df cats ps Hc Hf) as (ws & out & ->);
        [done|by eexists].
    + apply has_column_false in Hd.
      destruct (processar_sem_data_com_categoria py_int parse_numeric
                  parse_datetime now df cats ps Hc Hf Hcat Hd) as (ws & -> & _).
      done.
  - apply has_column_false in Hcat.
    destruct (processar_devolve now df cats ps Hc Hf) as (ws & out & ->);
      [done|by eexists].
Qed.


(** X7. The table returned has the columns of the input, in their
    order, except that with the category column the column 'Prioridade
    Motivo' is never among them, and no row holds a cell of that name:
    the transient rank is not returned, and a column of the input with
    that name is lost. *)
Theorem colunas_da_saida now df cats ps ws out :
  processar now df cats ps = (ws, inr out) →
  columns out = (if has_column "CATEGORIA4" df
                 then filter (λ c, c ≠ "Prioridade Motivo") (columns df)
                 else columns df)
  ∧ ("CATEGORIA4" ∈ columns df →
     ("Prioridade Motivo" ∉ columns out)
     ∧ Forall (λ r : row, r !! "Prioridade Motivo" = None) (rows out)).
Proof.
  intros
    (w1 & d1 & d2 & w3 & d3 & w4 & d4 & w5 & H1 & H2 & H3 & H4 & H5 & _)%processar_inr.
  apply remover_pagadores_inr_passo in H1 as [E1 _].
  apply filtros_padrao_passo in H2 as [E2 _].
  apply filtrar_data_inr_passo in H3 as [E3 _].
  apply filtrar_inadimplentes_inr_passo in H4 as [E4 _].
  rewrite E1 in E2. rewrite E2 in E3. rewrite E3 in E4.
  rewrite <- (has_column_ext "CATEGORIA4" _ _ E4), <- E4.
  apply filtrar_categorias_inr in H5 as [(Hn & _ & ->)|(Hc & _ & _ & ->)].
  - rewrite (proj2 (has_column_false _ _) Hn). split; [done|]. by intros ?.
  - rewrite (proj2 (has_column_true _ _) Hc). simpl. split; [done|].
    intros _. split.
    + by intros [? _]%list_elem_of_filter.
    + apply Forall_fmap, Forall_forall. intros r _. apply lookup_delete_eq.
Qed.

End Cobertura.

(** ** Ties in the order *)

Lemma filter_insert_by {A} (le : A → A → bool) (P : A → Prop)
    `{∀ x, Decision (P x)} x l :
  (∀ z, z ∈ l → P x → P z → le x z = true) →
  filter P (insert_by le x l) = filter P (x :: l).
Proof.
  induction l as [|y l IH]; intros Hle; [done|]. simpl.
  destruct (le x y) eqn:E; [done|].
  rewrite (filter_cons _ y), IH, !filter_cons.
  2: { intros z Hz. apply Hle. by right. }
  destruct (decide (P x)) as [Hx|Hx], (decide (P y)) as [Hy|Hy]; try done.
  rewrite Hle in E; [done|by left|done|done].
Qed.

(** The sort keeps apart no two rows of a class of rows that compare
    as equal: within such a class the order of the input is kept. *)
Lemma filter_stable_sort {A} (le : A → A → bool) (P : A → Prop)
    `{∀ x, Decision (P x)} l :
  (∀ a b, a ∈ l → b ∈ l → P a → P b → le a b = true) →
  filter P (stable_sort le l) = filter P l.
Proof.
  induction l as [|x l IH]; intros Hle; [done|]. simpl.
  rewrite filter_insert_by.
  - rewrite !filter_cons, IH; [done|].
    intros a b Ha Hb. apply Hle; by right.
  - intros z Hz%elem_of_stable_sort. apply Hle; [by left|by right].
Qed.

(** With a list without repetition the last occurrence is the only
    one. *)
Lemma NoDup_ultima_posicao cats c i :
  NoDup cats → cats !! i = Some c → ultima_posicao cats c i.
Proof.
  intros Hnd Hi. split; [done|]. intros j Hj Hc.
  pose proof (NoDup_lookup _ _ _ _ Hnd Hi Hc). lia.
Qed.

(** X9. The rank of a category is one plus an index at which the list
    holds it, at most the length of the list, and two categories never
    share a rank; in a list without repetition the category at index
    [i] has the rank [i + 1] and no other. *)
Theorem prioridade_e_a_posicao cats :
  (∀ c k, prioridade_map cats !! c = Some k →
     1 ≤ k ≤ Z.of_nat (length cats) ∧ cats !! Z.to_nat (k - 1) = Some c)
  ∧ (∀ c c' k, prioridade_map cats !! c = Some k →
       prioridade_map cats !! c' = Some k → c = c')
  ∧ (NoDup cats →
     ∀ i c, cats !! i = Some c ↔ prioridade_map cats !! c = Some (Z.of_nat i + 1)).
Proof.
  split; [|split].
  - intros c k (i & -> & Hi & _)%prioridade_map_lookup.
    apply lookup_lt_Some in Hi as Hlt.
    replace (Z.to_nat (Z.of_nat i + 1 - 1)) with i by lia. split; [lia|done].
  - intros c c' k (i & -> & Hi & _)%prioridade_map_lookup
      (j & Hj & Hj' & _)%prioridade_map_lookup.
    assert (i = j) as -> by lia. congruence.
  - intros Hnd i c. split.
    + intros Hi. apply prioridade_map_lookup. exists i. split; [done|].
      by apply NoDup_ultima_posicao.
    + intros (j & Hj & Hj' & _)%prioridade_map_lookup.
      assert (i = j) as -> by lia. done.
Qed.

Section Empates.

Context (py_int : string → option Z).
Context (parse_numeric parse_datetime : cell → option Z).

Set Default Proof Using "Type".

Local Abbreviation processar :=
  (processar_dados_churn_com_motivos py_int parse_numeric parse_datetime).
Local Abbreviation linha_convertida :=
  (linha_convertida py_int parse_numeric parse_datetime).
Local Abbreviation sobrevive := (sobrevive py_int parse_numeric parse_datetime).


End Empates.

(** * The text of the input boxes *)

(** ** [strip] *)

Lemma lstrip_decompose s :
  ∃ ws, s = ws ++ Entrada.lstrip s ∧ Forall (λ c, Entrada.isspace c = true) ws.
Proof.
  induction s as [|c s (ws & Hs & Hws)]; [by exists []|]. simpl.
  destruct (Entrada.isspace c) eqn:E.
  - exists (c :: ws). split; [by rewrite Hs at 1|by constructor].
  - by exists [].
Qed.

Lemma lstrip_head s c s' :
  Entrada.lstrip s = c :: s' → Entrada.isspace c = false.
Proof.
  induction s as [|d s IH]; [done|]. simpl.
  destruct (Entrada.isspace d) eqn:E; [done|]. by intros [= <- _].
Qed.

Lemma lstrip_idemp s : Entrada.lstrip (Entrada.lstrip s) = Entrada.lstrip s.
Proof.
  destruct (Entrada.lstrip s) as [|c s'] eqn:E; [done|].
  simpl. by rewrite (lstrip_head _ _ _ E).
Qed.

Lemma lstrip_espacos ws s :
  Forall (λ c, Entrada.isspace c = true) ws →
  Entrada.lstrip (ws ++ s) = Entrada.lstrip s.
Proof. induction 1 as [|c ws Hc _ IH]; [done|]. simpl. by rewrite Hc. Qed.

Lemma rstrip_decompose s :
  ∃ ws, s = Entrada.rstrip s ++ ws ∧ Forall (λ c, Entrada.isspace c = true) ws.
Proof.
  destruct (lstrip_decompose (reverse s)) as (ws & Hs & Hws).
  exists (reverse ws). split.
  - unfold Entrada.rstrip. rewrite <- reverse_app, <- Hs.
    by rewrite reverse_involutive.
  - by apply Forall_reverse.
Qed.

Lemma rstrip_idemp s : Entrada.rstrip (Entrada.rstrip s) = Entrada.rstrip s.
Proof.
  unfold Entrada.rstrip. by rewrite reverse_involutive, lstrip_idemp.
Qed.

(** A text that starts with no white space still does after [rstrip]. *)
Lemma lstrip_rstrip t :
  Entrada.lstrip t = t → Entrada.lstrip (Entrada.rstrip t) = Entrada.rstrip t.
Proof.
  intros Ht. destruct (rstrip_decompose t) as (ws & Hd & _).
  destruct (Entrada.rstrip t) as [|c u] eqn:E; [done|].
  rewrite Hd in Ht. simpl in Ht |- *.
  destruct (Entrada.isspace c) eqn:Ec; [|done].
  exfalso. destruct (lstrip_decompose (u ++ ws)) as (ws' & Hd' & _).
  rewrite Ht in Hd'. apply (f_equal length) in Hd'.
  repeat (rewrite length_app in Hd' || rewrite length_cons in Hd').
  lia.
Qed.

Lemma strip_idemp s : Entrada.strip (Entrada.strip s) = Entrada.strip s.
Proof.
  unfold Entrada.strip.
  rewrite (lstrip_rstrip (Entrada.lstrip s)) by apply lstrip_idemp.
  apply rstrip_idemp.
Qed.

Lemma strip_Forall (P : N → Prop) s : Forall P s → Forall P (Entrada.strip s).
Proof.
  intros Hs. unfold Entrada.strip.
  destruct (lstrip_decompose s) as (ws1 & H1 & _).
  destruct (rstrip_decompose (Entrada.lstrip s)) as (ws2 & H2 & _).
  rewrite H1, H2 in Hs. by apply Forall_app in Hs as [_ [? _]%Forall_app].
Qed.

Lemma strip_espacos ws x :
  Forall (λ c, Entrada.isspace c = true) ws →
  Entrada.strip (ws ++ x) = Entrada.strip x.
Proof. intros H. unfold Entrada.strip. by rewrite lstrip_espacos. Qed.

Lemma strip_aparado s : Entrada.strip s ≠ [] → Entrada.aparado (Entrada.strip s).
Proof. intros H. split; [done|apply strip_idemp]. Qed.

(** The entries both boxes give: the stripped lines or fields that are
    not blank. *)
Lemma entradas_aparadas (P : N → Prop) (l : list texto) :
  Forall (Forall P) l →
  Forall (λ x, Entrada.aparado x ∧ Forall P x)
         (Entrada.strip <$> filter (λ y, Entrada.strip y ≠ []) l).
Proof.
  intros Hl. apply Forall_fmap, Forall_forall.
  intros y [Hy Hin]%list_elem_of_filter. simpl. split; [by apply strip_aparado|].
  rewrite Forall_forall in Hl. by apply strip_Forall, Hl.
Qed.

Lemma entradas_ida_e_volta (l : list texto) :
  Forall Entrada.aparado l →
  Entrada.strip <$> filter (λ y, Entrada.strip y ≠ []) l = l.
Proof.
  intros Hl. rewrite filter_Forall_id.
  - apply fmap_Forall_id. eapply Forall_impl; [exact Hl|]. by intros x [_ ?].
  - eapply Forall_impl; [exact Hl|]. intros x [Hx Hs]. by rewrite Hs.
Qed.

(** ** [splitlines] *)

Lemma splitlines_aux_sem_quebra n : ∀ s cur,
  (length s ≤ n)%nat →
  Forall (λ c, Entrada.islinebreak c = false) cur →
  Forall (Forall (λ c, Entrada.islinebreak c = false))
         (Entrada.splitlines_aux cur s).
Proof.
  induction n as [|n IH]; intros [|c s] cur Hn Hcur; simpl in *.
  - destruct cur; repeat constructor. by apply Forall_reverse.
  - lia.
  - destruct cur; repeat constructor. by apply Forall_reverse.
  - destruct (Entrada.islinebreak c) eqn:Ec.
    + constructor; [by apply Forall_reverse|].
      destruct s as [|c' s'']; [by constructor|].
      destruct (bool_decide (c = 13%N) && bool_decide (c' = 10%N));
        apply IH; simpl in *; (lia || constructor).
    + apply IH; [lia|]. by constructor.
Qed.

Lemma splitlines_aux_app x : ∀ cur rest,
  Forall (λ c, Entrada.islinebreak c = false) x →
  Entrada.splitlines_aux cur (x ++ rest)
  = Entrada.splitlines_aux (reverse x ++ cur) rest.
Proof.
  induction x as [|c x IH]; intros cur rest Hx; [done|].
  apply Forall_cons in Hx as [Hc Hx]. simpl. rewrite Hc, IH by done.
  by rewrite reverse_cons, <- app_assoc.
Qed.

Lemma splitlines_aux_LF cur rest :
  Entrada.splitlines_aux cur (10%N :: rest)
  = reverse cur :: Entrada.splitlines_aux [] rest.
Proof. by destruct rest. Qed.

Lemma splitlines_join (l : list texto) :
  Forall (λ x, x ≠ [] ∧ Forall (λ c, Entrada.islinebreak c = false) x) l →
  Entrada.splitlines (Entrada.join [10%N] l) = l.
Proof.
  unfold Entrada.splitlines.
  induction 1 as [|x l [Hne Hx] Hl IH]; [done|].
  destruct l as [|y l].
  - simpl. rewrite <- (app_nil_r x) at 1. rewrite splitlines_aux_app by done.
    simpl. rewrite app_nil_r.
    destruct (reverse x) as [|c u] eqn:E.
    + apply (f_equal reverse) in E. rewrite reverse_involutive in E. done.
    + by rewrite <- E, reverse_involutive.
  - change (Entrada.join [10%N] (x :: y :: l))
      with (x ++ 10%N :: Entrada.join [10%N] (y :: l)).
    rewrite splitlines_aux_app, splitlines_aux_LF, IH by done.
    by rewrite app_nil_r, reverse_involutive.
Qed.

(** ** [split] *)

Lemma split_aux_sem_separador sep s : ∀ cur,
  sep ∉ cur → Forall (λ x, sep ∉ x) (Entrada.split_aux sep cur s).
Proof.
  induction s as [|c s IH]; intros cur Hcur; simpl.
  - repeat constructor. by rewrite elem_of_reverse.
  - destruct (bool_decide_reflect (c = sep)) as [->|Hc].
    + constructor; [by rewrite elem_of_reverse|]. apply IH, not_elem_of_nil.
    + apply IH. rewrite not_elem_of_cons. by split; [congruence|].
Qed.

Lemma split_aux_app sep x : ∀ cur rest,
  sep ∉ x →
  Entrada.split_aux sep cur (x ++ rest)
  = Entrada.split_aux sep (reverse x ++ cur) rest.
Proof.
  induction x as [|c x IH]; intros cur rest Hx; [done|].
  apply not_elem_of_cons in Hx as [Hc Hx]. simpl.
  rewrite bool_decide_false by congruence. rewrite IH by done.
  by rewrite reverse_cons, <- app_assoc.
Qed.

Lemma split_aux_sep sep cur rest :
  Entrada.split_aux sep cur (sep :: rest)
  = reverse cur :: Entrada.split_aux sep [] rest.
Proof. simpl. by rewrite bool_decide_true. Qed.

Lemma split_aux_join sep esp (l : list texto) : ∀ x cur,
  sep ∉ esp → sep ∉ x → Forall (λ y, sep ∉ y) l →
  Entrada.split_aux sep cur (Entrada.join (sep :: esp) (x :: l))
  = (reverse cur ++ x) :: ((esp ++.) <$> l).
Proof.
  induction l as [|y l IH]; intros x cur Hesp Hx Hl.
  - simpl. rewrite <- (app_nil_r x) at 1. rewrite split_aux_app by done.
    simpl. by rewrite reverse_app, reverse_involutive.
  - apply Forall_cons in Hl as [Hy Hl].
    change (Entrada.join (sep :: esp) (x :: y :: l))
      with (x ++ sep :: (esp ++ Entrada.join (sep :: esp) (y :: l))).
    rewrite split_aux_app, split_aux_sep, split_aux_app, IH by done.
    by rewrite reverse_app, !app_nil_r, !reverse_involutive.
Qed.

Lemma entradas_espacos esp (l : list texto) :
  Forall (λ c, Entrada.isspace c = true) esp →
  Entrada.strip <$> filter (λ y, Entrada.strip y ≠ []) ((esp ++.) <$> l)
  = Entrada.strip <$> filter (λ y, Entrada.strip y ≠ []) l.
Proof.
  intros Hesp. induction l as [|y l IH]; [done|].
  rewrite fmap_cons, !filter_cons, strip_espacos by done.
  destruct (decide (Entrada.strip y ≠ [])); [|exact IH].
  rewrite !fmap_cons, strip_espacos by done. f_equal. exact IH.
Qed.

(** ** What the two boxes give *)

(** X10. Every category read from the text box (line 151) is not
    empty, has no white space at either end and holds no line break:
    blank lines give no category, and a category never spans lines. *)
Theorem categorias_usuario_aparadas (user_motivos : texto) :
  Forall (λ x, Entrada.aparado x
               ∧ Forall (λ c, Entrada.islinebreak c = false) x)
         (Entrada.categorias_usuario user_motivos).
Proof.
  apply entradas_aparadas, (splitlines_aux_sem_quebra (length user_motivos));
    [done|constructor].
Qed.

(** X11. Round trip of the category box: the text the session puts in
    the box for a list of categories (lines 109 and 131, one per line)
    is read back at line 151 as that list, in order, when each category
    is not empty, has no white space at either end and no line break.
    The 19 default categories are such a list. *)
Theorem motivos_ida_e_volta (motivos : list texto) :
  Forall (λ x, Entrada.aparado x
               ∧ Forall (λ c, Entrada.islinebreak c = false) x) motivos →
  Entrada.categorias_usuario (Entrada.motivos_input motivos) = motivos.
Proof.
  intros H. unfold Entrada.categorias_usuario, Entrada.motivos_input.
  rewrite splitlines_join.
  - apply entradas_ida_e_volta. eapply Forall_impl; [exact H|]. by intros x [? _].
  - eapply Forall_impl; [exact H|]. by intros x [[? _] ?].
Qed.

(** X12. Every payer read from the payers box (line 157) is not empty,
    has no white space at either end and holds no comma: empty fields,
    as in "1,,2" or after a last comma, give no payer. *)
Theorem pagadores_a_remover_aparados (pagadores_str : texto) :
  Forall (λ x, Entrada.aparado x ∧ 44%N ∉ x)
         (Entrada.pagadores_a_remover pagadores_str).
Proof.
  eapply Forall_impl.
  - apply (entradas_aparadas (λ c, c ≠ 44%N)).
    eapply Forall_impl;
      [apply (split_aux_sem_separador 44%N pagadores_str []), not_elem_of_nil|].
    intros x Hx. apply Forall_forall. intros c Hc ->. done.
  - intros x [Ha Hf]. split; [done|]. intros Hin.
    rewrite Forall_forall in Hf. by apply Hf in Hin.
Qed.

(** X13. Round trip of the payers box: payers written one after the
    other with a comma and any white space between them, as in
    "123, 456, 789", are read at line 157 as that list, in order, when
    each is not empty, has no white space at either end and no comma. *)
Theorem pagadores_ida_e_volta (esp : texto) (pagadores : list texto) :
  Forall (λ c, Entrada.isspace c = true) esp →
  Forall (λ x, Entrada.aparado x ∧ 44%N ∉ x) pagadores →
  Entrada.pagadores_a_remover (Entrada.join (44%N :: esp) pagadores)
  = pagadores.
Proof.
  intros Hesp Hl. unfold Entrada.pagadores_a_remover, Entrada.split.
  assert (44%N ∉ esp) as Hsep.
  { intros Hin. rewrite Forall_forall in Hesp. by apply Hesp in Hin. }
  destruct pagadores as [|x l]; [done|].
  apply Forall_cons in Hl as [[Hx Hxs] Hl].
  rewrite split_aux_join; [|done|done|].
  2: { eapply Forall_impl; [exact Hl|]. by intros y [_ ?]. }
  simpl. rewrite filter_cons.
  destruct Hx as [Hne Hst]. rewrite Hst.
  destruct (decide (x ≠ [])); [|done].
  rewrite fmap_cons, Hst. f_equal.
  rewrite entradas_espacos by done.
  apply entradas_ida_e_volta. eapply Forall_impl; [exact Hl|]. by intros y [? _].
Qed.

(** ** The click on "Criar Mailing" *)

Lemma filter_nil_Forall {A} (P : A → Prop) `{∀ x, Decision (P x)} (l : list A) :
  filter P l = [] ↔ Forall (λ x, ¬ P x) l.
Proof.
  induction l as [|x l IH]; [by split; [constructor|]|].
  rewrite filter_cons, Forall_cons. destruct (decide (P x)).
  - split; [done|]. by intros [? _].
  - rewrite IH. tauto.
Qed.

Lemma filter_length_Exists {A} (P : A → Prop) `{∀ x, Decision (P x)}
    (l : list A) :
  (0 < length (filter P l))%nat ↔ Exists P l.
Proof.
  induction l as [|x l IH]; [by rewrite Exists_nil; simpl; lia|].
  rewrite filter_cons, Exists_cons. destruct (decide (P x)); simpl.
  - split; [by left|lia].
  - rewrite IH. tauto.
Qed.

Lemma categorias_usuario_nil (user_motivos : texto) :
  Entrada.categorias_usuario user_motivos = []
  ↔ Forall (λ linha, Entrada.strip linha = []) (Entrada.splitlines user_motivos).
Proof.
  unfold Entrada.categorias_usuario.
  assert (∀ l : list texto, Entrada.strip <$> l = [] ↔ l = []) as ->.
  { intros l. split; [apply fmap_nil_inv|by intros ->]. }
  rewrite filter_nil_Forall.
  apply Forall_proper; [|done]. intros linha.
  destruct (decide (Entrada.strip linha = [])); tauto.
Qed.

Lemma categorias_usuario_com_motivo (user_motivos : texto) :
  Exists (λ linha, Entrada.strip linha ≠ []) (Entrada.splitlines user_motivos)
  ↔ Entrada.categorias_usuario user_motivos ≠ [].
Proof.
  rewrite categorias_usuario_nil. split.
  - intros (x & Hin & Hx)%Exists_exists HF.
    rewrite Forall_forall in HF. by apply Hx, HF.
  - intros HnF.
    destruct (decide (Exists (λ linha, Entrada.strip linha ≠ [])
                        (Entrada.splitlines user_motivos))) as [|Hn]; [done|].
    exfalso. apply HnF, Forall_forall. intros x Hin.
    destruct (decide (Entrada.strip x = [])) as [|Hx]; [done|].
    exfalso. apply Hn, Exists_exists. eauto.
Qed.

Section Clique.

Context (py_int : string → option Z).
Context (parse_numeric parse_datetime : cell → option Z).

Set Default Proof Using "Type".

Local Abbreviation processar :=
  (processar_dados_churn_com_motivos py_int parse_numeric parse_datetime).
Local Abbreviation criar := (criar_mailing py_int parse_numeric parse_datetime).
Local Abbreviation sobrevive := (sobrevive py_int parse_numeric parse_datetime).
Local Abbreviation botao :=
  (botao_criar_mailing py_int parse_numeric parse_datetime).

(** With some category, the outcome by the columns and by the rows. *)
Lemma criar_mailing_casos now df cats ps :
  cats ≠ [] →
  match coluna_em_falta df with
  | Some c => criar now df cats ps = ErroAoProcessar (KeyError c)
  | None =>
      ∃ out, criar now df cats ps =
             if bool_decide (Exists (sobrevive now df cats ps) (rows df))
             then PlanilhaParaBaixar out else NenhumCasoEncontrado
  end.
Proof.
  intros Hcats. unfold criar_mailing. rewrite bool_decide_false by done.
  pose proof (processar_resultado py_int parse_numeric parse_datetime
                now df cats ps) as Hr.
  destruct (coluna_em_falta df) as [c|]; [by rewrite Hr|].
  destruct Hr as [out Hr]. exists out. rewrite Hr.
  destruct (processar now df cats ps) as [ws r] eqn:E.
  unfold Run.resultado in Hr. simpl in Hr. subst r.
  apply processar_linhas in E as [E _].
  rewrite (bool_decide_ext _ (Exists (sobrevive now df cats ps) (rows df)));
    [done|].
  rewrite <- filter_length_Exists.
  apply Permutation_length in E. rewrite length_fmap in E. by rewrite E.
Qed.


End Clique.
(** ** A later moment, a shorter list of categories *)

Lemma filter_impl_sublist {A} (P Q : A → Prop) `{∀ x, Decision (P x)}
    `{∀ x, Decision (Q x)} (l : list A) :
  (∀ x, P x → Q x) → filter P l `sublist_of` filter Q l.
Proof.
  intros HPQ. rewrite <- (list_filter_filter_l P Q l HPQ). apply sublist_filter.
Qed.

Section Monotonia.

Context (py_int : string → option Z).
Context (parse_numeric parse_datetime : cell → option Z).

Set Default Proof Using "Type".

Local Abbreviation processar :=
  (processar_dados_churn_com_motivos py_int parse_numeric parse_datetime).
Local Abbreviation sobrevive := (sobrevive py_int parse_numeric parse_datetime).

Lemma sobrevive_mono now now' df cats cats' ps r :
  now ≤ now' → (∀ c, c ∈ cats' → c ∈ cats) →
  sobrevive now' df cats' ps r → sobrevive now df cats ps r.
Proof.
  intros Hnow Hcats (Hp & Hc & Hf & Hd & Hi & Hcat).
  repeat split; try done.
  - intros Hin. destruct (Hd Hin) as (t & Ht & Hle). exists t. split; [done|lia].
  - intros Hin. apply Hcat in Hin.
    apply list_elem_of_fmap in Hin as (c & -> & Hin).
    apply list_elem_of_fmap. eauto.
Qed.

(** X15. Run later, or with some categories taken off the list, the
    function returns no row that it did not return before: the rows of
    the second table are among the rows of the first, each as many
    times at most; without the category column they are also in the
    same order. *)
Theorem depois_ou_com_menos_motivos now now' df cats cats' ps ws out ws' out' :
  now ≤ now' → (∀ c, c ∈ cats' → c ∈ cats) →
  processar now df cats ps = (ws, inr out) →
  processar now' df cats' ps = (ws', inr out') →
  rows out' ⊆+ rows out
  ∧ ("CATEGORIA4" ∉ columns df → rows out' `sublist_of` rows out).
Proof.
  intros Hnow Hcats [E1 F1]%processar_linhas [E2 F2]%processar_linhas.
  pose proof (filter_impl_sublist (sobrevive now' df cats' ps)
                (sobrevive now df cats ps) (rows df)
                (λ r, sobrevive_mono now now' df cats cats' ps r Hnow Hcats))
    as Hs.
  split.
  - rewrite E1, E2. by apply sublist_submseteq, fmap_sublist.
  - intros Hn. rewrite F1, F2 by done. by apply fmap_sublist.
Qed.

End Monotonia.

(** ** The further properties on the example tables *)


Lemma inadimplentes_excluidos_exemplo :
  "STATUSINADIMPLENTE" ∈ columns Exemplo.base ∧
  Exemplo.processar Exemplo.hoje Exemplo.base Exemplo.motivos []
  = ([], inr Exemplo.mailing) ∧
  Forall (λ r : row, r !!! "STATUSINADIMPLENTE" ≠ Str "I") (rows Exemplo.mailing).
Proof.
  assert ("STATUSINADIMPLENTE" ∈ columns Exemplo.base) as H1 by decidir.
  assert (Exemplo.processar Exemplo.hoje Exemplo.base Exemplo.motivos []
          = ([], inr Exemplo.mailing)) as H2 by (vm_compute; reflexivity).
  split; [exact H1|]. split; [exact H2|].
  exact (inadimplentes_excluidos _ _ _ _ _ _ _ _ _ H1 H2).
Defined.

Lemma coluna_pagador_preferida_exemplo :
  ["102"; "109"] ≠ @nil string ∧
  ∃ w d1,
    remover_pagadores Exemplo.py_int Exemplo.parse_numeric Exemplo.base
      ["102"; "109"] = (w, inr d1) ∧
    ("PAGADOR" ∈ columns Exemplo.base →
       (AvisoPagadorMinusculo ∉ w) ∧ passo ["PAGADOR"] Exemplo.base d1)
    ∧ (("PAGADOR" ∉ columns Exemplo.base) → "Pagador" ∈ columns Exemplo.base →
       ∃ w', w = AvisoPagadorMinusculo :: w' ∧ passo ["Pagador"] Exemplo.base d1).
Proof.
  assert (["102"; "109"] ≠ @nil string) as H1 by discriminate.
  assert (∃ w d1, remover_pagadores Exemplo.py_int Exemplo.parse_numeric
                    Exemplo.base ["102"; "109"] = (w, inr d1))
    as (w & d1 & H2) by (eexists _, _; vm_compute; reflexivity).
  split; [exact H1|]. exists w, d1. split; [exact H2|].
  exact (coluna_pagador_preferida _ _ _ _ _ _ H1 H2).
Defined.

Lemma pagadores_ignorados_sem_coluna_exemplo :
  ("PAGADOR" ∉ columns (Exemplo.sem_coluna "PAGADOR" Exemplo.base)) ∧
  ("Pagador" ∉ columns (Exemplo.sem_coluna "PAGADOR" Exemplo.base)) ∧
  Exemplo.processar Exemplo.hoje (Exemplo.sem_coluna "PAGADOR" Exemplo.base)
    Exemplo.motivos ["102"]
  = Exemplo.processar Exemplo.hoje (Exemplo.sem_coluna "PAGADOR" Exemplo.base)
      Exemplo.motivos [].
Proof.
  assert ("PAGADOR" ∉ columns (Exemplo.sem_coluna "PAGADOR" Exemplo.base))
    as H1 by decidir.
  assert ("Pagador" ∉ columns (Exemplo.sem_coluna "PAGADOR" Exemplo.base))
    as H2 by decidir.
  split; [exact H1|]. split; [exact H2|].
  exact (pagadores_ignorados_sem_coluna _ _ _ _ _ _ _ H1 H2).
Defined.


Lemma colunas_da_saida_exemplo :
  Exemplo.processar Exemplo.hoje Exemplo.base Exemplo.motivos []
  = ([], inr Exemplo.mailing) ∧
  columns Exemplo.mailing
  = (if has_column "CATEGORIA4" Exemplo.base
     then filter (λ c, c ≠ "Prioridade Motivo") (columns Exemplo.base)
     else columns Exemplo.base)
  ∧ ("CATEGORIA4" ∈ columns Exemplo.base →
     ("Prioridade Motivo" ∉ columns Exemplo.mailing)
     ∧ Forall (λ r : row, r !! "Prioridade Motivo" = None) (rows Exemplo.mailing)).
Proof.
  assert (Exemplo.processar Exemplo.hoje Exemplo.base Exemplo.motivos []
          = ([], inr Exemplo.mailing)) as H by (vm_compute; reflexivity).
  split; [exact H|].
  exact (colunas_da_saida _ _ _ _ _ _ _ _ _ H).
Defined.


(** The 19 default categories come back from the text of the box. *)
Lemma motivos_ida_e_volta_exemplo :
  length Entrada.motivos_padrao = 19%nat ∧
  Forall (λ x, Entrada.aparado x
               ∧ Forall (λ c, Entrada.islinebreak c = false) x)
         (Entrada.decodificar <$> Entrada.motivos_padrao) ∧
  Entrada.categorias_usuario
    (Entrada.motivos_input (Entrada.decodificar <$> Entrada.motivos_padrao))
  = Entrada.decodificar <$> Entrada.motivos_padrao.
Proof.
  assert (Forall (λ x, Entrada.aparado x
                       ∧ Forall (λ c, Entrada.islinebreak c = false) x)
                 (Entrada.decodificar <$> Entrada.motivos_padrao)) as H by decidir.
  split; [reflexivity|]. split; [exact H|].
  exact (motivos_ida_e_volta _ H).
Defined.

(** The text of the hint of line 139. *)
Lemma pagadores_ida_e_volta_exemplo :
  Entrada.join [44%N; 32%N] (Entrada.decodificar <$> ["123"; "456"; "789"])
  = Entrada.decodificar "123, 456, 789" ∧
  Forall (λ c, Entrada.isspace c = true) [32%N] ∧
  Forall (λ x, Entrada.aparado x ∧ 44%N ∉ x)
         (Entrada.decodificar <$> ["123"; "456"; "789"]) ∧
  Entrada.pagadores_a_remover
    (Entrada.join [44%N; 32%N] (Entrada.decodificar <$> ["123"; "456"; "789"]))
  = Entrada.decodificar <$> ["123"; "456"; "789"].
Proof.
  assert (Forall (λ c, Entrada.isspace c = true) [32%N]) as H1 by decidir.
  assert (Forall (λ x, Entrada.aparado x ∧ 44%N ∉ x)
                 (Entrada.decodificar <$> ["123"; "456"; "789"])) as H2 by decidir.
  split; [reflexivity|]. split; [exact H1|]. split; [exact H2|].
  exact (pagadores_ida_e_volta _ _ H1 H2).
Defined.

(** Forty-five days later and without the second category, the rows of
    10 June and of the second category are gone. *)
Lemma depois_ou_com_menos_motivos_exemplo :
  Exemplo.hoje ≤ Exemplo.hoje + timedelta_days 45 ∧
  (∀ c, c ∈ ["DESEJA DESCONTO"] → c ∈ Exemplo.motivos) ∧
  Exemplo.processar Exemplo.hoje Exemplo.base Exemplo.motivos []
  = ([], inr Exemplo.mailing) ∧
  Exemplo.processar (Exemplo.hoje + timedelta_days 45) Exemplo.base
    ["DESEJA DESCONTO"] []
  = ([], inr (mkDF Exemplo.colunas [Exemplo.linha_sn])) ∧
  [Exemplo.linha_sn] ⊆+ rows Exemplo.mailing
  ∧ ("CATEGORIA4" ∉ columns Exemplo.base →
     [Exemplo.linha_sn] `sublist_of` rows Exemplo.mailing).
Proof.
  assert (Exemplo.hoje ≤ Exemplo.hoje + timedelta_days 45) as H1
    by (vm_compute; discriminate).
  assert (∀ c, c ∈ ["DESEJA DESCONTO"] → c ∈ Exemplo.motivos) as H2.
  { intros c ->%list_elem_of_singleton. decidir. }
  assert (Exemplo.processar Exemplo.hoje Exemplo.base Exemplo.motivos []
          = ([], inr Exemplo.mailing)) as H3 by (vm_compute; reflexivity).
  assert (Exemplo.processar (Exemplo.hoje + timedelta_days 45) Exemplo.base
            ["DESEJA DESCONTO"] []
          = ([], inr (mkDF Exemplo.colunas [Exemplo.linha_sn]))) as H4
    by (vm_compute; reflexivity).
  split; [exact H1|]. split; [exact H2|]. split; [exact H3|]. split; [exact H4|].
  exact (depois_ou_com_menos_motivos _ _ _ _ _ _ _ _ _ _ _ _ _ H1 H2 H3 H4).
Defined.
